(** * code-search-mcp: the two embedding scripts

    A shallow embedding of [Scripts/generate_embeddings.py] (the one-shot
    stdin/stdout tool) and [Scripts/bert_embedding_server.py] (the local HTTP
    server), and the properties their specification states about them.

    Both scripts are glue around three things they do not define: the JSON
    codec, the [http.server] base handler and the sentence-transformers
    model.  The values these produce are data here ([json], [ndarray],
    [exn]); what they compute is supplied by an environment record [Env], so
    every definition below is a function of the environment it runs in.

    Left out: the log lines (they change nothing a client or a caller can
    see), and [KeyboardInterrupt] and [SystemExit], which are not
    [Exception]s and are not caught by any handler modelled here. *)

From Stdlib Require Import ZArith PrimFloat.
From stdpp Require Import base strings pretty gmap list.

#[local] Set Warnings "-register-all".
#[local] Open Scope Z_scope.

(** ** Python values *)

(** What [json.loads] returns and [json.dumps] accepts.  A JSON object is a
    Python [dict] keyed by [str]. *)
Inductive json : Type :=
  | JNull
  | JBool (b : bool)
  | JInt (n : Z)
  | JFloat (f : float)
  | JStr (s : string)
  | JArr (xs : list json)
  | JObj (m : gmap string json).

(** The exception classes the scripts raise or tell apart.  All of them are
    subclasses of [Exception]; [ModuleNotFoundError] is a subclass of
    [ImportError]. *)
Inductive exn_class : Type :=
  | JSONDecodeError
  | ImportError
  | ModuleNotFoundError
  | RuntimeError
  | TypeError
  | ValueError
  | KeyError
  | OtherException (name : string).

(** An exception object: its class and [str(e)]. *)
Record exn : Type := Exn { class_of : exn_class; str : string }.

Inductive result (A : Type) : Type :=
  | Ok (a : A)
  | Raise (e : exn).
Arguments Ok {A} a.
Arguments Raise {A} e.

Definition isinstance_JSONDecodeError (e : exn) : bool :=
  match class_of e with JSONDecodeError => true | _ => false end.

Definition isinstance_ImportError (e : exn) : bool :=
  match class_of e with
  | ImportError | ModuleNotFoundError => true
  | _ => false
  end.

(** ** Text

    A Python [str] is held as the bytes of its UTF-8 form, a [bytes] object
    as it is.  Two things in the scripts depend on the characters of a
    [str]: the status line [send_error] writes is encoded in latin-1, which
    has the characters up to U+00FF only, and the header values the handler
    reads were decoded from latin-1. *)

(** A byte of a UTF-8 text whose character is at most U+00FF: an ASCII
    byte, a continuation byte, or one of the lead bytes 0xC2 and 0xC3. *)
Definition latin1_byte (c : Ascii.ascii) : bool :=
  (Ascii.nat_of_ascii c <? 196)%nat.

(** [s.encode('latin-1', 'strict')] does not raise. *)
Fixpoint latin1 (s : string) : bool :=
  match s with
  | EmptyString => true
  | String c s' => latin1_byte c && latin1 s'
  end.

(** The [str] of one byte decoded from latin-1. *)
Definition decode_byte (c : Ascii.ascii) : string :=
  let n := Ascii.nat_of_ascii c in
  if (n <? 128)%nat then String c EmptyString
  else String (Ascii.ascii_of_nat (192 + n / 64))
         (String (Ascii.ascii_of_nat (128 + n mod 64)) EmptyString).

(** [str(raw, 'iso-8859-1')] *)
Fixpoint decode_latin1 (raw : string) : string :=
  match raw with
  | EmptyString => EmptyString
  | String c raw' => decode_byte c +:+ decode_latin1 raw'
  end.

(** The number of characters of a [str]: its bytes that are not
    continuation bytes (0x80 to 0xBF). *)
Fixpoint characters (s : string) : nat :=
  match s with
  | EmptyString => O
  | String c s' =>
      let n := Ascii.nat_of_ascii c in
      if ((128 <=? n) && (n <? 192))%nat then characters s'
      else S (characters s')
  end.

Lemma latin1_app (a b : string) : latin1 (a +:+ b) = latin1 a && latin1 b.
Proof.
  induction a as [| c a IH]; simpl; [done |]. by rewrite IH, andb_assoc.
Qed.

Lemma latin1_decode (raw : string) : latin1 (decode_latin1 raw) = true.
Proof.
  induction raw as [| c raw IH]; simpl; [done |].
  rewrite latin1_app, IH, andb_true_r.
  by destruct c as [[] [] [] [] [] [] [] []].
Qed.

(** [type(e).__name__] *)
Definition class_name (c : exn_class) : string :=
  match c with
  | JSONDecodeError => "JSONDecodeError"
  | ImportError => "ImportError"
  | ModuleNotFoundError => "ModuleNotFoundError"
  | RuntimeError => "RuntimeError"
  | TypeError => "TypeError"
  | ValueError => "ValueError"
  | KeyError => "KeyError"
  | OtherException name => name
  end.

(** [type(v).__name__] *)
Definition type_name (v : json) : string :=
  match v with
  | JNull => "NoneType"
  | JBool _ => "bool"
  | JInt _ => "int"
  | JFloat _ => "float"
  | JStr _ => "str"
  | JArr _ => "list"
  | JObj _ => "dict"
  end.

Definition is_JStr (k : string) (v : json) : bool :=
  match v with JStr s => bool_decide (s = k) | _ => false end.

(** [k in v] for a [str] constant [k]: key membership in a dict, element
    membership in a list, substring test in a str, [TypeError] otherwise. *)
Definition py_contains (k : string) (v : json) : result bool :=
  match v with
  | JObj m => Ok (bool_decide (is_Some (m !! k)))
  | JArr xs => Ok (existsb (is_JStr k) xs)
  | JStr s => Ok (bool_decide (is_Some (String.index 0 k s)))
  | _ => Raise (Exn TypeError
                  ("argument of type '" +:+ type_name v +:+ "' is not iterable"))
  end.

(** [repr(k)] of a key made of plain characters. *)
Definition repr_str (k : string) : string := "'" +:+ k +:+ "'".

(** [v[k]] for a [str] constant [k]. *)
Definition py_getitem (v : json) (k : string) : result json :=
  match v with
  | JObj m =>
      match m !! k with
      | Some x => Ok x
      | None => Raise (Exn KeyError (repr_str k))
      end
  | JArr _ =>
      Raise (Exn TypeError "list indices must be integers or slices, not str")
  | JStr _ =>
      Raise (Exn TypeError "string indices must be integers, not 'str'")
  | _ =>
      Raise (Exn TypeError ("'" +:+ type_name v +:+ "' object is not subscriptable"))
  end.

(** [len(v)] *)
Definition py_len (v : json) : result Z :=
  match v with
  | JArr xs => Ok (Z.of_nat (length xs))
  | JStr s => Ok (Z.of_nat (characters s))
  | JObj m => Ok (Z.of_nat (size m))
  | _ => Raise (Exn TypeError
                  ("object of type '" +:+ type_name v +:+ "' has no len()"))
  end.

(** [isinstance(v, list)] *)
Definition isinstance_list (v : json) : bool :=
  match v with JArr _ => true | _ => false end.

(** Truth value of a list ([not texts] is [negb (truthy_list xs)]). *)
Definition truthy_list (xs : list json) : bool :=
  match xs with [] => false | _ :: _ => true end.

(** ** The model provider's values *)

(** A NumPy array of floats: a 0-d scalar or an array of sub-arrays. *)
Inductive ndarray : Type :=
  | NdScalar (f : float)
  | NdArray (rows : list ndarray).

(** [a.tolist()] *)
Fixpoint tolist (a : ndarray) : json :=
  match a with
  | NdScalar f => JFloat f
  | NdArray rows => JArr (map tolist rows)
  end.

(** [iter(a)]: the sub-arrays along the first axis. *)
Definition iter_ndarray (a : ndarray) : result (list ndarray) :=
  match a with
  | NdArray rows => Ok rows
  | NdScalar _ => Raise (Exn TypeError "iteration over a 0-d array")
  end.

(** Keyword arguments the scripts pass to [encode]; [None] is "not passed". *)
Record encode_kwargs : Type := Kwargs {
  show_progress_bar : option bool;
  convert_to_numpy : option bool;
  batch_size : option Z
}.

(** A constructed [SentenceTransformer] object.  [handle_id] is the object's
    identity: the number of constructor calls made before the one that
    returned it. *)
Record SentenceTransformer : Type := Handle {
  handle_id : nat;
  encode : json -> encode_kwargs -> result ndarray
}.

(** What the scripts call and do not define.
    - [json_loads], [py_int]: [json.loads] and [int].
    - [new_model n name] is the outcome of the [n]-th evaluation (counting
      from 0) of [SentenceTransformer(name)] in this process: the methods of
      the object it returns, or the exception it raises.  In the server the
      [from sentence_transformers import] of line 37 sits in the same [try]
      and is part of it.
    - [import_error] is what the tool's own imports (lines 9-11) raise, at
      module level and before [main] runs; [None] when they succeed.
    - [traceback e] is what the interpreter writes to standard error for an
      exception nothing catches (it names the script's path).
    - [unicode_error m] is the [UnicodeEncodeError] that
      [m.encode('latin-1', 'strict')] raises for an [m] it cannot encode.

    The three last fields are facts about the libraries.  The messages of
    the exceptions [json.loads] raises are fixed English text with decimal
    positions and byte values, so they are ASCII; this holds of every
    [JSONDecodeError] the json module raises, also while the model's files
    are read.  The message of the [ValueError] of [int] quotes its
    argument, so it has the characters of the argument and ASCII ones. *)
Record Env : Type := MkEnv {
  json_loads : string -> result json;
  py_int : string -> result Z;
  new_model : nat -> string -> result (json -> encode_kwargs -> result ndarray);
  import_error : option exn;
  traceback : exn -> string;
  unicode_error : string -> exn;
  json_loads_latin1 :
    forall s e, json_loads s = Raise e -> latin1 (str e) = true;
  py_int_latin1 :
    forall s e, latin1 s = true -> py_int s = Raise e -> latin1 (str e) = true;
  new_model_json_latin1 :
    forall n name e,
      new_model n name = Raise e -> isinstance_JSONDecodeError e = true ->
      latin1 (str e) = true
}.

(** The interpreter state a script can observe or change: its module-level
    model variable, and a record of the calls made to the provider. *)
Record state : Type := State {
  model_var : option SentenceTransformer;
  ctor_calls : nat;
  constructed : nat;
  encode_calls : list json
}.

(** A fresh process: the global is [None], nothing has been called. *)
Definition fresh : state := State None 0 0 [].

(** ** Computations that read and write the state and may raise *)

Definition M (A : Type) : Type := state -> state * result A.

Definition ret {A} (a : A) : M A := fun s => (s, Ok a).
Definition raise {A} (e : exn) : M A := fun s => (s, Raise e).
Definition bind {A B} (c : M A) (k : A -> M B) : M B :=
  fun s => match c s with
           | (s', Ok a) => k a s'
           | (s', Raise e) => (s', Raise e)
           end.
Definition lift {A} (r : result A) : M A := fun s => (s, r).

(** [try: c except Exception as e: h e] *)
Definition try_except {A} (c : M A) (h : exn -> M A) : M A :=
  fun s => match c s with
           | (s', Ok a) => (s', Ok a)
           | (s', Raise e) => h e s'
           end.

Notation "x <- c ;; k" := (bind c (fun x => k))
  (at level 99, c at next level, right associativity).
Notation "c ;;; k" := (bind c (fun _ => k))
  (at level 99, right associativity).

Definition get_model_var : M (option SentenceTransformer) :=
  fun s => (s, Ok (model_var s)).

Definition set_model_var (h : SentenceTransformer) : M unit :=
  fun s => (State (Some h) (ctor_calls s) (constructed s) (encode_calls s), Ok tt).

(** [SentenceTransformer(name)]: one constructor call.  The call is counted
    whether it returns or raises; a returned object is counted as
    constructed. *)
Definition construct (E : Env) (name : string) : M SentenceTransformer :=
  fun s =>
    let n := ctor_calls s in
    match new_model E n name with
    | Ok enc =>
        (State (model_var s) (S n) (S (constructed s)) (encode_calls s),
         Ok (Handle n enc))
    | Raise e =>
        (State (model_var s) (S n) (constructed s) (encode_calls s), Raise e)
    end.

(** [h.encode(input, **kw)]: the input is recorded, then the provider
    answers. *)
Definition call_encode (h : SentenceTransformer) (input : json)
    (kw : encode_kwargs) : M ndarray :=
  fun s =>
    (State (model_var s) (ctor_calls s) (constructed s) (encode_calls s ++ [input]),
     encode h input kw).

(** Characters that a string literal cannot hold directly. *)
Definition dq : string := String (Ascii.ascii_of_nat 34) EmptyString.
Definition nl : string := String (Ascii.ascii_of_nat 10) EmptyString.

(** ** Scripts/generate_embeddings.py *)

Module GenerateEmbeddings.

(** What one run of the script leaves behind: the documents printed on
    standard output (each [print(json.dumps(d))] adds [d]), the text the
    script or the interpreter writes to standard error (what the libraries
    log there is not recorded), and the exit status. *)
Record outcome : Type := Outcome {
  stdout : list json;
  stderr : list string;
  exit_code : Z
}.

Definition MODEL_NAME : string := "sentence-transformers/all-MiniLM-L6-v2".

Definition invalid_request : string :=
  "Invalid request: must provide " +:+ dq +:+ "text" +:+ dq
    +:+ " or " +:+ dq +:+ "texts" +:+ dq.

Section Script.
Context (E : Env).

Definition load_model : M SentenceTransformer :=
  model <- get_model_var ;;
  match model with
  | None =>
      model <- construct E MODEL_NAME ;;
      set_model_var model ;;;
      ret model
  | Some model => ret model
  end.

Definition generate_embedding (text : json) : M json :=
  model <- load_model ;;
  embedding <- call_encode model text (Kwargs None (Some true) None) ;;
  ret (tolist embedding).

Definition generate_batch_embeddings (texts : json) : M json :=
  model <- load_model ;;
  embeddings <- call_encode model texts (Kwargs None (Some true) (Some 32)) ;;
  ret (tolist embeddings).

(** The body of [main]'s [try], up to the value bound to [response]. *)
Definition respond (stdin : string) : M json :=
  request <- lift (json_loads E stdin) ;;
  has_text <- lift (py_contains "text" request) ;;
  if has_text : bool then
    text <- lift (py_getitem request "text") ;;
    embedding <- generate_embedding text ;;
    dimension <- lift (py_len embedding) ;;
    ret (JObj (<["dimension" := JInt dimension]> {["embedding" := embedding]}))
  else
    has_texts <- lift (py_contains "texts" request) ;;
    if has_texts : bool then
      texts <- lift (py_getitem request "texts") ;;
      embeddings <- generate_batch_embeddings texts ;;
      count <- lift (py_len embeddings) ;;
      ret (JObj (<["count" := JInt count]> {["embeddings" := embeddings]}))
    else
      ret (JObj {["error" := JStr invalid_request]}).

(** [main()] followed by the end of the script, in a process whose imports
    (lines 9-11) have succeeded: a normal return exits with status 0,
    [sys.exit(1)] with status 1. *)
Definition main (stdin : string) (s : state) : state * outcome :=
  match respond stdin s with
  | (s', Ok response) => (s', Outcome [response] [] 0)
  | (s', Raise e) =>
      (s', Outcome [JObj {["error" := JStr (str e)]}]
                   ["Error: " +:+ str e +:+ nl] 1)
  end.

(** The script from its first line, in a new process.  The imports of lines
    9-11 run at module level, outside any [try]: when one raises, nothing
    catches it, the interpreter writes the traceback to standard error and
    exits with status 1, and [main] is never called.  Otherwise lines 60-61
    call [main()]. *)
Definition script (stdin : string) : state * outcome :=
  match import_error E with
  | Some e => (fresh, Outcome [] [traceback E e] 1)
  | None => main stdin fresh
  end.

(** The functions of the module that need the model. *)
Inductive operation : Type :=
  | LoadModel
  | GenerateEmbedding (text : json)
  | GenerateBatchEmbeddings (texts : json).

Definition perform (op : operation) : M unit :=
  match op with
  | LoadModel => load_model ;;; ret tt
  | GenerateEmbedding text => generate_embedding text ;;; ret tt
  | GenerateBatchEmbeddings texts => generate_batch_embeddings texts ;;; ret tt
  end.

(** Calls made one after the other in one process, each from the state the
    one before it left, whether it returned or raised. *)
Fixpoint perform_all (ops : list operation) (s : state) : state :=
  match ops with
  | [] => s
  | op :: ops' => perform_all ops' (perform op s).1
  end.

End Script.
End GenerateEmbeddings.

(** ** Scripts/bert_embedding_server.py *)

Module BertEmbeddingServer.

(** A parsed request: the bytes of [self.command], of [self.path] and of the
    [Content-Length] header ([None] when the header is absent), and the
    bytes the client sends after the headers ([self.rfile]).  The handler
    sees the first three decoded from latin-1. *)
Record request : Type := Request {
  command : string;
  path : string;
  content_length : option string;
  rfile : string
}.

(** What the handler writes back: [send_response(code)] with a JSON body,
    or [send_error(code, message)]. *)
Inductive response : Type :=
  | SendJson (code : Z) (body : json)
  | SendError (code : Z) (message : string).

Definition status (r : response) : Z :=
  match r with SendJson c _ | SendError c _ => c end.

Definition not_installed : string :=
  "sentence-transformers package not installed. "
    +:+ "Run: pip3 install sentence-transformers".

(** What leaves the [try] of lines 36-49 when its body raised [e]: the
    [RuntimeError] of line 43 for an [ImportError], [e] itself otherwise. *)
Definition reraise (e : exn) : exn :=
  if isinstance_ImportError e then Exn RuntimeError not_installed else e.

Definition health : json :=
  JObj (<["dimension" := JInt 384]>
        (<["model" := JStr "all-MiniLM-L6-v2"]> {["status" := JStr "healthy"]})).

(** [self.rfile.read(n)]: the first [n] bytes sent, everything for a
    negative [n]. *)
Definition rfile_read (n : Z) (sent : string) : string :=
  if n <? 0 then sent else String.substring 0 (Z.to_nat n) sent.

Section Server.
Context (E : Env).

(** Run by one thread at a time, the lock is free on entry and on exit,
    so [with _model_lock] leaves no trace in the state. *)
Definition get_model : M SentenceTransformer :=
  m <- get_model_var ;;
  match m with
  | Some h => ret h
  | None =>
      m <- get_model_var ;;
      match m with
      | Some h => ret h
      | None =>
          try_except
            (h <- construct E "all-MiniLM-L6-v2" ;;
             set_model_var h ;;;
             ret h)
            (fun e =>
               if isinstance_ImportError e
               then raise (Exn RuntimeError not_installed)
               else raise e)
      end
  end.

Definition do_GET (r : request) : M response :=
  if bool_decide (path r = "/health")
  then ret (SendJson 200 health)
  else ret (SendError 404 "Not Found").

(** [int(self.headers['Content-Length'])] *)
Definition header_int (h : option string) : result Z :=
  match h with
  | Some v => py_int E (decode_latin1 v)
  | None =>
      Raise (Exn TypeError
               ("int() argument must be a string, a bytes-like object "
                  +:+ "or a real number, not 'NoneType'"))
  end.

(** Lines 100-106: from the validated [texts] to [embeddings_list]. *)
Definition embeddings_list_of (texts : json) : M (list json) :=
  model <- get_model ;;
  embeddings <- call_encode model texts (Kwargs (Some false) None None) ;;
  embs <- lift (iter_ndarray embeddings) ;;
  ret (map tolist embs).

(** The body of [do_POST]'s [try]. *)
Definition embed (r : request) : M response :=
  content_length <- lift (header_int (content_length r)) ;;
  let body := rfile_read content_length (rfile r) in
  data <- lift (json_loads E body) ;;
  has_texts <- lift (py_contains "texts" data) ;;
  if negb has_texts then
    ret (SendError 400 "Missing 'texts' field in request")
  else
    texts <- lift (py_getitem data "texts") ;;
    match texts with
    | JArr xs =>
        if negb (truthy_list xs) then
          ret (SendError 400 "'texts' array cannot be empty")
        else
          embeddings_list <- embeddings_list_of texts ;;
          ret (SendJson 200
                 (JObj (<["count" := JInt (Z.of_nat (length embeddings_list))]>
                        (<["dimension" := JInt 384]>
                         {["embeddings" := JArr embeddings_list]}))))
    | _ => ret (SendError 400 "'texts' must be an array")
    end.

(** [self.send_error(code, message)] with a message built from an
    exception.  The base handler encodes the status line with
    [encode('latin-1', 'strict')]: a message with a character above U+00FF
    makes it raise [UnicodeEncodeError], before anything is written.  The
    other calls of [send_error] pass a constant ASCII message, or the method
    name the base handler decoded from latin-1; their status lines always
    encode, and they are written [ret (SendError code message)]. *)
Definition send_error (code : Z) (message : string) : M response :=
  if latin1 message
  then ret (SendError code message)
  else raise (unicode_error E message).

(** An exception raised inside an [except] clause is not caught by the
    clauses of the same [try]: what [send_error] raises leaves [do_POST]. *)
Definition do_POST (r : request) : M response :=
  if negb (bool_decide (path r = "/embed")) then
    ret (SendError 404 "Not Found - use /embed")
  else
    try_except (embed r)
      (fun e =>
         if isinstance_JSONDecodeError e
         then send_error 400 ("Invalid JSON: " +:+ str e)
         else send_error 500 ("Internal server error: " +:+ str e)).

(** The dispatch [EmbeddingHandler] inherits from
    [BaseHTTPRequestHandler.handle_one_request]: the method [do_<command>]
    is called when the class has one, and [send_error(501, ...)] is the
    answer when it has none.  The class defines [do_GET] and [do_POST]. *)
Definition handle_one_request (r : request) : M response :=
  if bool_decide (command r = "GET") then do_GET r
  else if bool_decide (command r = "POST") then do_POST r
  else ret (SendError 501 ("Unsupported method (" +:+ repr_str (command r) +:+ ")")).

(** [r] is a [POST /embed] whose [Content-Length] header is a number and
    whose body, read to that length, parses to [data]. *)
Definition posts (r : request) (data : json) : Prop :=
  command r = "POST" /\ path r = "/embed" /\
  exists n, header_int (content_length r) = Ok n /\
            json_loads E (rfile_read n (rfile r)) = Ok data.

(** [httpd.serve_forever()] on the requests that arrive, in order.  An
    exception that escapes a handler is reported by the socket server, the
    connection is closed without a response and the loop goes on; the
    exception is kept in the list in place of a response. *)
Fixpoint serve_forever (rs : list request) (s : state)
    : state * list (result response) :=
  match rs with
  | [] => (s, [])
  | r :: rs' =>
      let '(s1, a) := handle_one_request r s in
      let '(s2, answers) := serve_forever rs' s1 in
      (s2, a :: answers)
  end.

End Server.
End BertEmbeddingServer.

(** ** [get_model] called from several threads

    [bert_embedding_server.get_model] is written to be called concurrently.
    Each thread is at one of the places below; a step of the program is a
    step of one thread, and the threads share the module's globals
    ([_model], [_model_lock]) and the provider. *)

Module Threads.

Inductive pc : Type :=
  | Outside                          (* not in [get_model] *)
  | Test1                            (* line 33: [if _model is None] *)
  | Acquire                          (* line 34: [with _model_lock], waiting *)
  | Test2                            (* line 35, lock held *)
  | Construct                        (* line 39, right-hand side, lock held *)
  | Store (h : SentenceTransformer)  (* line 39, assignment, lock held *)
  | Release (e : option exn)         (* leaving the [with] block, lock held *)
  | Return                           (* line 50: [return _model] *)
  | Returned (m : option SentenceTransformer)
  | Raised (e : exn).

Record config : Type := Config {
  globals : state;             (* [_model] and the provider's call record *)
  lock : option nat;           (* the thread holding [_model_lock] *)
  threads : list pc
}.

Definition init (n : nat) : config := Config fresh None (replicate n Outside).

(** Places where the thread is inside the [with] block. *)
Definition holding (p : pc) : bool :=
  match p with
  | Test2 | Construct | Store _ | Release _ => true
  | _ => false
  end.

Definition idle (p : pc) : bool :=
  match p with
  | Outside | Returned _ | Raised _ => true
  | _ => false
  end.

Section Steps.
Context (E : Env).

(** [step_of i p c] : thread [i], standing at [p], takes its next step
    from configuration [c].  [None] when it cannot move (the lock is
    taken). *)
Definition step_of (i : nat) (p : pc) (c : config) : option config :=
  let g := globals c in
  let goto p' := Some (Config g (lock c) (<[i := p']> (threads c))) in
  match p with
  | Outside | Returned _ | Raised _ => goto Test1
  | Test1 =>
      match model_var g with None => goto Acquire | Some _ => goto Return end
  | Acquire =>
      match lock c with
      | None => Some (Config g (Some i) (<[i := Test2]> (threads c)))
      | Some _ => None
      end
  | Test2 =>
      match model_var g with
      | None => goto Construct
      | Some _ => goto (Release None)
      end
  | Construct =>
      match construct E "all-MiniLM-L6-v2" g with
      | (g', Ok h) => Some (Config g' (lock c) (<[i := Store h]> (threads c)))
      | (g', Raise e) =>
          Some (Config g' (lock c) (<[i := Release (Some (BertEmbeddingServer.reraise e))]> (threads c)))
      end
  | Store h =>
      match set_model_var h g with
      | (g', _) => Some (Config g' (lock c) (<[i := Release None]> (threads c)))
      end
  | Release None => Some (Config g None (<[i := Return]> (threads c)))
  | Release (Some e) => Some (Config g None (<[i := Raised e]> (threads c)))
  | Return => goto (Returned (model_var g))
  end.

Inductive step (c c' : config) : Prop :=
  | step_thread i p :
      threads c !! i = Some p -> step_of i p c = Some c' -> step c c'.

(** What holds at every point of every interleaving. *)
Record invariant (c : config) : Prop := Invariant {
  inv_lock : forall i p,
    threads c !! i = Some p -> holding p = true -> lock c = Some i;
  inv_construct : forall i,
    threads c !! i = Some Construct ->
    model_var (globals c) = None /\ constructed (globals c) = 0%nat;
  inv_store : forall i h,
    threads c !! i = Some (Store h) ->
    model_var (globals c) = None /\ constructed (globals c) = 1%nat;
  inv_loaded : forall h,
    model_var (globals c) = Some h -> constructed (globals c) = 1%nat;
  inv_unloaded :
    model_var (globals c) = None ->
    constructed (globals c) = 0%nat \/ exists i h, threads c !! i = Some (Store h);
  inv_release : forall i,
    threads c !! i = Some (Release None) -> is_Some (model_var (globals c));
  inv_return : forall i,
    threads c !! i = Some Return -> is_Some (model_var (globals c));
  inv_returned : forall i m,
    threads c !! i = Some (Returned m) ->
    is_Some m /\ model_var (globals c) = m
}.

(** Any interleaving of the threads' steps. *)
Inductive reachable (n : nat) : config -> Prop :=
  | reach_init : reachable n (init n)
  | reach_step c c' : reachable n c -> step c c' -> reachable n c'.

(** Running a schedule: the list names the thread that moves next; a
    thread that cannot move is skipped. *)
Fixpoint run (sched : list nat) (c : config) : config :=
  match sched with
  | [] => c
  | i :: sched' =>
      match threads c !! i with
      | Some p =>
          match step_of i p c with
          | Some c' => run sched' c'
          | None => run sched' c
          end
      | None => run sched' c
      end
  end.

End Steps.
End Threads.

(** ** The provider's contract *)

(** A 1-d array of floats. *)
Definition vector (fs : list float) : ndarray := NdArray (NdScalar <$> fs).

(** Modelled from the spec: the embedding model provider, whose code (the
    sentence-transformers package and the pretrained model it loads) is not
    part of the repository.  The contract is
    [embed(text: string) -> vector<float, 384>] and
    [embed_batch(texts: sequence<string>) -> sequence<vector<float,384>>]:
    given one or more text strings it returns one fixed-length numeric
    vector per string, preserving input order one-to-one, with no cross-item
    interaction.  [embed] is the vector the model assigns to a text; the
    keyword arguments the scripts pass do not change the values. *)
Definition meets_contract (embed : string -> list float)
    (enc : json -> encode_kwargs -> result ndarray) : Prop :=
  (forall t, length (embed t) = 384%nat) /\
  (forall t kw, enc (JStr t) kw = Ok (vector (embed t))) /\
  (forall ts kw, enc (JArr (JStr <$> ts)) kw = Ok (NdArray (vector ∘ embed <$> ts))).

(** The provider is at hand in state [s]: the global holds a model that meets
    the contract, or the next constructor call returns one. *)
Definition available (E : Env) (name : string) (embed : string -> list float)
    (s : state) : Prop :=
  match model_var s with
  | Some h => meets_contract embed (encode h)
  | None =>
      exists enc, new_model E (ctor_calls s) name = Ok enc /\ meets_contract embed enc
  end.

(** A JSON list of exactly 384 floats. *)
Definition is_vector384 (v : json) : Prop :=
  exists fs, v = JArr (JFloat <$> fs) /\ length fs = 384%nat.

(** The JSON form of the vector [embed] gives a text. *)
Definition embedding_of (embed : string -> list float) (t : string) : json :=
  JArr (JFloat <$> embed t).

(** ** A concrete environment to run the scripts in *)

Module Sample.

Definition digit (c : Ascii.ascii) : option Z :=
  let n := Z.of_nat (Ascii.nat_of_ascii c) in
  if (48 <=? n) && (n <=? 57) then Some (n - 48) else None.

Fixpoint digits (acc : Z) (s : string) : option Z :=
  match s with
  | EmptyString => Some acc
  | String c s' =>
      match digit c with
      | Some d => digits (10 * acc + d) s'
      | None => None
      end
  end.

(** [int] on plain decimal numerals. *)
Definition py_int (s : string) : result Z :=
  match s, digits 0 s with
  | String _ _, Some n => Ok n
  | _, _ => Raise (Exn ValueError
                     ("invalid literal for int() with base 10: " +:+ repr_str s))
  end.

Definition doc_empty : string := "{}".
Definition doc_number : string := "42".
Definition doc_text : string :=
  "{" +:+ dq +:+ "text" +:+ dq +:+ ": " +:+ dq +:+ "hello" +:+ dq +:+ "}".
Definition doc_texts : string :=
  "{" +:+ dq +:+ "texts" +:+ dq +:+ ": [" +:+ dq +:+ "hello" +:+ dq +:+ ", "
    +:+ dq +:+ "hi" +:+ dq +:+ "]}".
Definition doc_texts_empty : string := "{" +:+ dq +:+ "texts" +:+ dq +:+ ": []}".
Definition doc_texts_scalar : string :=
  "{" +:+ dq +:+ "texts" +:+ dq +:+ ": " +:+ dq +:+ "hello" +:+ dq +:+ "}".
Definition doc_texts_numbers : string :=
  "{" +:+ dq +:+ "texts" +:+ dq +:+ ": [1]}".

(** [json.loads] on the documents above; anything else is rejected. *)
Definition json_loads (s : string) : result json :=
  if bool_decide (s = doc_empty) then Ok (JObj ∅)
  else if bool_decide (s = doc_number) then Ok (JInt 42)
  else if bool_decide (s = doc_text) then Ok (JObj {["text" := JStr "hello"]})
  else if bool_decide (s = doc_texts)
    then Ok (JObj {["texts" := JArr [JStr "hello"; JStr "hi"]]})
  else if bool_decide (s = doc_texts_empty) then Ok (JObj {["texts" := JArr []]})
  else if bool_decide (s = doc_texts_scalar)
    then Ok (JObj {["texts" := JStr "hello"]})
  else if bool_decide (s = doc_texts_numbers)
    then Ok (JObj {["texts" := JArr [JInt 1]]})
  else Raise (Exn JSONDecodeError "Expecting value: line 1 column 1 (char 0)").

(** A stand-in model: every component of a text's vector is the text's
    length. *)
Fixpoint float_of_nat (n : nat) : float :=
  match n with
  | O => 0%float
  | S n' => (float_of_nat n' + 1)%float
  end.

Definition embed (t : string) : list float :=
  replicate 384 (float_of_nat (String.length t)).

Fixpoint strings_of (xs : list json) : option (list string) :=
  match xs with
  | [] => Some []
  | JStr t :: xs' => cons t <$> strings_of xs'
  | _ :: _ => None
  end.

Definition encode (input : json) (kw : encode_kwargs) : result ndarray :=
  match input with
  | JStr t => Ok (vector (embed t))
  | JArr xs =>
      match strings_of xs with
      | Some ts => Ok (NdArray (vector ∘ embed <$> ts))
      | None => Raise (Exn TypeError "text input must be of type str")
      end
  | _ => Raise (Exn TypeError "text input must be of type str")
  end.

(** The last line of a traceback; the lines that name files are left
    out. *)
Definition traceback (e : exn) : string :=
  "Traceback (most recent call last):" +:+ nl
    +:+ class_name (class_of e) +:+ ": " +:+ str e +:+ nl.

Definition unicode_error (m : string) : exn :=
  Exn (OtherException "UnicodeEncodeError")
    "'latin-1' codec can't encode characters: ordinal not in range(256)".

Lemma loads_messages (s : string) (e : exn) :
  json_loads s = Raise e -> latin1 (str e) = true.
Proof.
  unfold json_loads. repeat case_bool_decide; try discriminate.
  by intros [= <-].
Qed.

Lemma int_messages (s : string) (e : exn) :
  latin1 s = true -> py_int s = Raise e -> latin1 (str e) = true.
Proof.
  intros Hs. unfold py_int, repr_str.
  assert (Hmsg : latin1 ("invalid literal for int() with base 10: "
                           +:+ ("'" +:+ s +:+ "'")) = true).
  { by rewrite !latin1_app, Hs. }
  destruct s as [| c s']; [by intros [= <-] |].
  destruct (digits 0 (String c s')); [discriminate | by intros [= <-]].
Qed.

(** A constructor that returns, or raises an exception of another class
    than [JSONDecodeError]. *)
Lemma no_json_error
    (f : nat -> string -> result (json -> encode_kwargs -> result ndarray)) :
  (forall n name e, f n name = Raise e -> isinstance_JSONDecodeError e = false) ->
  forall n name e,
    f n name = Raise e -> isinstance_JSONDecodeError e = true ->
    latin1 (str e) = true.
Proof. intros Hf n name e Hraise Hclass. by rewrite (Hf n name e Hraise) in Hclass. Qed.

(** The package is installed and the model loads. *)
Definition env : Env :=
  MkEnv json_loads py_int (fun _ _ => Ok encode) None traceback unicode_error
    loads_messages int_messages
    (no_json_error (fun _ _ => Ok encode) ltac:(intros n name e H; discriminate H)).

(** The package is not installed. *)
Definition env_missing : Env :=
  MkEnv json_loads py_int
    (fun _ _ => Raise (Exn ModuleNotFoundError "No module named 'sentence_transformers'"))
    (Some (Exn ModuleNotFoundError "No module named 'sentence_transformers'"))
    traceback unicode_error loads_messages int_messages
    (no_json_error
       (fun _ _ =>
          Raise (Exn ModuleNotFoundError "No module named 'sentence_transformers'"))
       ltac:(by intros n name e [= <-])).

(** The package is installed, the model's files cannot be read. *)
Definition env_broken : Env :=
  MkEnv json_loads py_int
    (fun _ _ => Raise (Exn (OtherException "OSError") "all-MiniLM-L6-v2 is not a local folder"))
    None traceback unicode_error loads_messages int_messages
    (no_json_error
       (fun _ _ =>
          Raise (Exn (OtherException "OSError") "all-MiniLM-L6-v2 is not a local folder"))
       ltac:(by intros n name e [= <-])).

(** A schedule for two threads that both find the global empty on line 33
    before either takes the lock: the second to enter the block finds the
    model on line 35 and constructs nothing. *)
Definition race : list nat :=
  [0; 1; 0; 1; 0; 1; 0; 0; 0; 0; 0; 1; 1; 1; 1]%nat.

Definition post (body : string) : BertEmbeddingServer.request :=
  BertEmbeddingServer.Request "POST" "/embed"
    (Some (pretty (String.length body))) body.

End Sample.

(** ** Invariants the properties speak of *)

(** The global holds a model exactly when one has been constructed, and then
    exactly one has been. *)
Definition once (s : state) : Prop :=
  constructed s = match model_var s with Some _ => 1%nat | None => 0%nat end.

(** The global holds the model [h], the one model constructed. *)
Definition holds (h : SentenceTransformer) (s : state) : Prop :=
  model_var s = Some h /\ constructed s = 1%nat.

(** A computation keeps the property [I] of the state, whether it returns or
    raises. *)
Definition preserves {A} (I : state -> Prop) (c : M A) : Prop :=
  forall s, I s -> I (c s).1.

(** ** More environments to run the scripts in *)

Module Sample2.

Definition doc_both : string :=
  "{" +:+ dq +:+ "text" +:+ dq +:+ ": " +:+ dq +:+ "hello" +:+ dq +:+ ", "
    +:+ dq +:+ "texts" +:+ dq +:+ ": [" +:+ dq +:+ "hi" +:+ dq +:+ "]}".

Definition doc_array : string := "[" +:+ dq +:+ "texts" +:+ dq +:+ "]".

(** [json.loads] on [doc_both], on [doc_array] and on the documents of
    [Sample]. *)
Definition json_loads (s : string) : result json :=
  if bool_decide (s = doc_both)
  then Ok (JObj (<["texts" := JArr [JStr "hi"]]> {["text" := JStr "hello"]}))
  else if bool_decide (s = doc_array) then Ok (JArr [JStr "texts"])
  else Sample.json_loads s.

Lemma loads_messages2 (s : string) (e : exn) :
  json_loads s = Raise e -> latin1 (str e) = true.
Proof.
  unfold json_loads. repeat case_bool_decide; try discriminate.
  apply Sample.loads_messages.
Qed.

Definition env : Env :=
  MkEnv json_loads Sample.py_int (fun _ _ => Ok Sample.encode) None
    Sample.traceback Sample.unicode_error loads_messages2 Sample.int_messages
    (Sample.no_json_error (fun _ _ => Ok Sample.encode)
       ltac:(intros n name e H; discriminate H)).

(** The model's files on disk are damaged: reading its configuration
    raises [JSONDecodeError]. *)
Definition env_corrupt : Env :=
  MkEnv Sample.json_loads Sample.py_int
    (fun _ _ => Raise (Exn JSONDecodeError "Expecting value: line 1 column 1 (char 0)"))
    None Sample.traceback Sample.unicode_error
    Sample.loads_messages Sample.int_messages
    ltac:(by intros n name e [= <-] _).


(** The model's files sit under a path with the character U+4E2D (bytes
    0xE4 0xB8 0xAD) in it, and cannot be read. *)
Definition zhong : string :=
  String (Ascii.ascii_of_nat 228)
    (String (Ascii.ascii_of_nat 184) (String (Ascii.ascii_of_nat 173) EmptyString)).

Definition env_unicode : Env :=
  MkEnv Sample.json_loads Sample.py_int
    (fun _ _ =>
       Raise (Exn (OtherException "OSError")
                ("No such file or directory: '/home/" +:+ zhong +:+ "/model'")))
    None Sample.traceback Sample.unicode_error
    Sample.loads_messages Sample.int_messages
    (Sample.no_json_error
       (fun _ _ =>
          Raise (Exn (OtherException "OSError")
                   ("No such file or directory: '/home/" +:+ zhong +:+ "/model'")))
       ltac:(by intros n name e [= <-])).

End Sample2.

(** ** The server script's entry point *)

(** [isinstance(e, ValueError)]; [JSONDecodeError] is a subclass. *)
Definition isinstance_ValueError (e : exn) : bool :=
  match class_of e with
  | ValueError | JSONDecodeError => true
  | _ => false
  end.

Module ServerScript.

(** How the [__main__] block of [bert_embedding_server.py] ends: in a call
    of [run_server], in [sys.exit], or in an exception nothing catches. *)
Inductive launch : Type :=
  | RunServer (host : string) (port : Z)
  | SysExit (code : Z)
  | Uncaught (e : exn).

(** [run_server(host: str = '127.0.0.1', port: int = 8765)], as called on
    line 157 with the port alone. *)
Definition run_server (port : Z) : launch := RunServer "127.0.0.1" port.

(** Lines 147-157, on [sys.argv]. *)
Definition script (E : Env) (argv : list string) : launch :=
  match argv with
  | _ :: arg :: _ =>
      match py_int E arg with
      | Ok port => run_server port
      | Raise e => if isinstance_ValueError e then SysExit 1 else Uncaught e
      end
  | _ => run_server 8765
  end.

End ServerScript.

(** ** What a computation returns, and what the properties below name *)

(** Every value the computation returns satisfies [P]. *)
Definition returns {A} (P : A -> Prop) (c : M A) : Prop :=
  forall s s' a, c s = (s', Ok a) -> P a.


(** The body of a successful [POST /embed] for the list [l] of embeddings. *)
Definition embed_body (l : list json) : json :=
  JObj (<["count" := JInt (Z.of_nat (length l))]>
        (<["dimension" := JInt 384]> {["embeddings" := JArr l]})).

(** The responses the handler class can write. *)
(** What the serve loop records for a request: a response, or the
    [UnicodeEncodeError] of a status line that could not be encoded. *)
Definition handled (E : Env) (a : result BertEmbeddingServer.response) : Prop :=
  (exists resp, a = Ok resp) \/
  (exists message, latin1 message = false /\ a = Raise (unicode_error E message)).

Definition expected (a : BertEmbeddingServer.response) : Prop :=
  match a with
  | BertEmbeddingServer.SendJson c body =>
      c = 200 /\ (body = BertEmbeddingServer.health \/ exists l, body = embed_body l)
  | BertEmbeddingServer.SendError c _ => c = 400 \/ c = 404 \/ c = 500 \/ c = 501
  end.

(** The lock is held by a thread that is inside the [with] block. *)
Definition lock_owned (c : Threads.config) : Prop :=
  forall j, Threads.lock c = Some j ->
    exists q, Threads.threads c !! j = Some q /\ Threads.holding q = true.

(** The place a call of [get_model] ends at, for what the call did. *)
Definition ended (r : result SentenceTransformer) : Threads.pc :=
  match r with
  | Ok h => Threads.Returned (Some h)
  | Raise e => Threads.Raised e
  end.

(** * Properties *)

(** ** Python's [in] and subscript on a dict *)

Lemma contains_absent (k : string) (m : gmap string json) :
  m !! k = None -> py_contains k (JObj m) = Ok false.
Proof.
  intros Hk. simpl. f_equal. apply bool_decide_eq_false.
  rewrite Hk. apply is_Some_None.
Qed.

Lemma contains_present (k : string) (m : gmap string json) (v : json) :
  m !! k = Some v -> py_contains k (JObj m) = Ok true.
Proof.
  intros Hk. simpl. f_equal. apply bool_decide_eq_true. rewrite Hk. eauto.
Qed.

Lemma getitem_present (k : string) (m : gmap string json) (v : json) :
  m !! k = Some v -> py_getitem (JObj m) k = Ok v.
Proof. intros Hk. simpl. by rewrite Hk. Qed.

(** ** The stdin/stdout tool *)

Section StdioTool.
Import GenerateEmbeddings.
Context (E : Env).


End StdioTool.


Section StdioErrors.
Import GenerateEmbeddings.
Context (E : Env).

(** A run of [main] ends in one of two ways, and prints one document in
    both. *)
Lemma main_outcomes (stdin : string) (s : state) :
  (exists response, respond E stdin s = ((main E stdin s).1, Ok response) /\
     (main E stdin s).2 = Outcome [response] [] 0) \/
  (exists e, respond E stdin s = ((main E stdin s).1, Raise e) /\
     (main E stdin s).2
     = Outcome [JObj {["error" := JStr (str e)]}] ["Error: " +:+ str e +:+ nl] 1).
Proof.
  unfold main. destruct (respond E stdin s) as [s' [response | e]]; simpl; eauto.
Qed.

(** A document that does not parse makes the [try] body raise what
    [json.loads] raised. *)
Lemma respond_parse_failure (stdin : string) (s : state) (e : exn) :
  json_loads E stdin = Raise e -> respond E stdin s = (s, Raise e).
Proof. intros Hparse. unfold respond, bind, lift. by rewrite Hparse. Qed.

(** A constructor that raises makes [load_model] raise the same exception,
    with the global still [None]. *)
Lemma load_model_failure (s : state) (e : exn) :
  model_var s = None ->
  new_model E (ctor_calls s) MODEL_NAME = Raise e ->
  load_model E s
  = (State None (S (ctor_calls s)) (constructed s) (encode_calls s), Raise e).
Proof.
  intros Hnone Hnew. unfold load_model, bind, get_model_var, construct.
  rewrite Hnone, Hnew. by rewrite Hnone.
Qed.

(** C8 as amended: in a run of the script whose imports succeeded, when the
    body of [main]'s [try] raises an exception [e] (from [json.loads], from
    the model, or from anything else it calls), the run prints exactly the
    object [{"error": str(e)}] on standard output, writes the line
    ["Error: " + str(e)] to standard error and exits with status 1, which is
    not zero. *)
Theorem main_exception (stdin : string) (s' : state) (e : exn) :
  import_error E = None ->
  respond E stdin fresh = (s', Raise e) ->
  script E stdin
  = (s', Outcome [JObj {["error" := JStr (str e)]}] ["Error: " +:+ str e +:+ nl] 1)
  /\ exit_code (script E stdin).2 <> 0.
Proof.
  intros Himport Hraise. unfold script, main. rewrite Himport, Hraise.
  split; [reflexivity | simpl; lia].
Qed.

End StdioErrors.

(** C8 as stated fails: when the package is not installed, the import of
    line 11 raises before [main] is called.  An exception is raised in the
    run, and nothing is printed on standard output. *)
Lemma import_failure_prints_nothing :
  ~ (forall (E : Env) (stdin : string),
       (is_Some (import_error E) \/
        exists s' e, GenerateEmbeddings.respond E stdin fresh = (s', Raise e)) ->
       exists msg,
         GenerateEmbeddings.stdout (GenerateEmbeddings.script E stdin).2
         = [JObj {["error" := JStr msg]}] /\
         GenerateEmbeddings.stderr (GenerateEmbeddings.script E stdin).2 <> [] /\
         GenerateEmbeddings.exit_code (GenerateEmbeddings.script E stdin).2 <> 0).
Proof.
  intros Hclaim.
  destruct (Hclaim Sample.env_missing Sample.doc_text) as (msg & Hout & _).
  - left. by eexists.
  - discriminate Hout.
Qed.

Lemma main_exception_witness :
  GenerateEmbeddings.script Sample.env_broken Sample.doc_text
  = (State None 1 0 [],
     GenerateEmbeddings.Outcome
       [JObj {["error" := JStr "all-MiniLM-L6-v2 is not a local folder"]}]
       ["Error: all-MiniLM-L6-v2 is not a local folder" +:+ nl] 1)
  /\ GenerateEmbeddings.exit_code
       (GenerateEmbeddings.script Sample.env_broken Sample.doc_text).2 <> 0.
Proof.
  apply (main_exception Sample.env_broken Sample.doc_text (State None 1 0 [])
           (Exn (OtherException "OSError") "all-MiniLM-L6-v2 is not a local folder"));
    reflexivity.
Defined.

(** ** The HTTP server *)

Section HttpServer.
Import BertEmbeddingServer.
Context (E : Env).

Lemma get_model_loaded (s : state) (h : SentenceTransformer) :
  model_var s = Some h -> get_model E s = (s, Ok h).
Proof. intros Hm. unfold get_model, bind, get_model_var. by rewrite Hm. Qed.

Lemma get_model_constructs (s : state)
    (enc : json -> encode_kwargs -> result ndarray) :
  model_var s = None ->
  new_model E (ctor_calls s) "all-MiniLM-L6-v2" = Ok enc ->
  get_model E s
  = (State (Some (Handle (ctor_calls s) enc)) (S (ctor_calls s))
       (S (constructed s)) (encode_calls s),
     Ok (Handle (ctor_calls s) enc)).
Proof.
  intros Hm Hnew.
  unfold get_model, bind, get_model_var, try_except, construct.
  rewrite Hm. cbn. rewrite Hm. cbn. rewrite Hnew. reflexivity.
Qed.

Lemma get_model_fails (s : state) (e : exn) :
  model_var s = None ->
  new_model E (ctor_calls s) "all-MiniLM-L6-v2" = Raise e ->
  get_model E s
  = (State None (S (ctor_calls s)) (constructed s) (encode_calls s),
     Raise (BertEmbeddingServer.reraise e)).
Proof.
  intros Hm Hnew.
  unfold get_model, bind, get_model_var, try_except, construct, BertEmbeddingServer.reraise.
  rewrite Hm. cbn. rewrite Hm. cbn. rewrite Hnew, Hm.
  by destruct (isinstance_ImportError e).
Qed.

Lemma handle_post (r : request) (data : json) (s : state) :
  posts E r data ->
  handle_one_request E r s
  = try_except
      (has_texts <- lift (py_contains "texts" data) ;;
       if negb has_texts then
         ret (SendError 400 "Missing 'texts' field in request")
       else
         texts <- lift (py_getitem data "texts") ;;
         match texts with
         | JArr xs =>
             if negb (truthy_list xs) then
               ret (SendError 400 "'texts' array cannot be empty")
             else
               embeddings_list <- embeddings_list_of E texts ;;
               ret (SendJson 200
                      (JObj (<["count" := JInt (Z.of_nat (length embeddings_list))]>
                             (<["dimension" := JInt 384]>
                              {["embeddings" := JArr embeddings_list]}))))
         | _ => ret (SendError 400 "'texts' must be an array")
         end)
      (fun e =>
         if isinstance_JSONDecodeError e
         then send_error E 400 ("Invalid JSON: " +:+ str e)
         else send_error E 500 ("Internal server error: " +:+ str e)) s.
Proof.
  intros (Hcmd & Hpath & n & Hlen & Hparse).
  unfold handle_one_request, do_POST. rewrite Hcmd, Hpath. simpl.
  unfold try_except, embed, bind at 1 2, lift at 1 2.
  rewrite Hlen, Hparse. reflexivity.
Qed.


End HttpServer.



Section HttpSuccess.
Import BertEmbeddingServer.
Context (E : Env).

Lemma tolist_vector (fs : list float) : tolist (vector fs) = JArr (JFloat <$> fs).
Proof.
  unfold vector. simpl. f_equal. rewrite <- list_fmap_compose.
  reflexivity.
Qed.


(** C4 as amended: a request that is neither [GET /health] nor
    [POST /embed] leaves the state alone and is answered HTTP 404 when its
    method is GET or POST, and HTTP 501 when it is any other method. *)
Theorem other_requests (r : request) (s : state) :
  (command r, path r) <> ("GET", "/health") ->
  (command r, path r) <> ("POST", "/embed") ->
  exists a,
    handle_one_request E r s = (s, Ok a) /\
    status a = if bool_decide (command r = "GET") || bool_decide (command r = "POST")
               then 404 else 501.
Proof.
  intros Hget Hpost. unfold handle_one_request, do_GET, do_POST.
  destruct (decide (command r = "GET")) as [Hc | Hc].
  - rewrite (bool_decide_eq_true_2 _ Hc). simpl.
    rewrite bool_decide_eq_false_2; [by eexists |].
    intros Hp. apply Hget. by rewrite Hc, Hp.
  - rewrite (bool_decide_eq_false_2 _ Hc). simpl.
    destruct (decide (command r = "POST")) as [Hc' | Hc'].
    + rewrite (bool_decide_eq_true_2 _ Hc').
      rewrite bool_decide_eq_false_2; [by eexists |].
      intros Hp. apply Hpost. by rewrite Hc', Hp.
    + rewrite (bool_decide_eq_false_2 _ Hc'). by eexists.
Qed.

Lemma send_error_latin1 (code : Z) (message : string) (s : state) :
  latin1 message = true ->
  send_error E code message s = (s, Ok (SendError code message)).
Proof. intros Hm. unfold send_error. by rewrite Hm. Qed.

Lemma send_error_state (code : Z) (message : string) (s : state) :
  (send_error E code message s).1 = s.
Proof. unfold send_error. by destruct (latin1 message). Qed.

Lemma send_error_cases (code : Z) (message : string) (s : state) :
  send_error E code message s = (s, Ok (SendError code message)) \/
  (latin1 message = false /\
   send_error E code message s = (s, Raise (unicode_error E message))).
Proof. unfold send_error. destruct (latin1 message); eauto. Qed.

(** The only exception that leaves a handler is the one [send_error] raises
    in an [except] clause of [do_POST]. *)
Lemma handle_answers (r : request) (s : state) :
  handled E (handle_one_request E r s).2.
Proof.
  unfold handled, handle_one_request, do_GET, do_POST, try_except, ret.
  repeat case_bool_decide; simpl; eauto.
  destruct (embed E r s) as [s' [a | e]]; simpl; eauto.
  destruct (isinstance_JSONDecodeError e);
    match goal with
    | |- context [send_error E ?c ?m s'] =>
        destruct (send_error_cases c m s') as [-> | [Hm ->]]; simpl; eauto
    end.
Qed.

(** The loop takes up every request that arrives, whatever happened while
    serving the ones before it. *)
Lemma serve_forever_answers (rs : list request) (s : state) :
  length (serve_forever E rs s).2 = length rs /\
  Forall (handled E) (serve_forever E rs s).2.
Proof.
  revert s. induction rs as [| r rs IH]; intros s; simpl.
  - split; [reflexivity | constructor].
  - pose proof (handle_answers r s) as Ha.
    destruct (handle_one_request E r s) as [s1 a1]. simpl in Ha.
    specialize (IH s1). destruct (serve_forever E rs s1) as [s2 answers].
    simpl in *. destruct IH as [IHlen IHall].
    split; [by rewrite IHlen | by constructor].
Qed.


(** C5 as amended: when the [try] body of [do_POST] raises an exception [e]
    whose message can be encoded in latin-1, the request is answered with
    the status and the message of the [except] clause that matches the class
    of [e], wherever in the [try] body it was raised: HTTP 400
    ["Invalid JSON: " + str(e)] for a [JSONDecodeError], HTTP 500
    ["Internal server error: " + str(e)] for any other exception.  The
    serve loop goes on: it takes up each of the requests that arrive
    afterwards, from the state the failed request left. *)
Theorem post_exception (r : request) (s s' : state) (e : exn) (rs : list request) :
  command r = "POST" ->
  path r = "/embed" ->
  embed E r s = (s', Raise e) ->
  latin1 (str e) = true ->
  let answer :=
    if isinstance_JSONDecodeError e
    then SendError 400 ("Invalid JSON: " +:+ str e)
    else SendError 500 ("Internal server error: " +:+ str e) in
  handle_one_request E r s = (s', Ok answer)
  /\ (isinstance_JSONDecodeError e = false -> status answer = 500)
  /\ (serve_forever E (r :: rs) s).2 = Ok answer :: (serve_forever E rs s').2
  /\ length (serve_forever E rs s').2 = length rs
  /\ Forall (handled E) (serve_forever E rs s').2.
Proof.
  intros Hcmd Hpath Hraise Hmsg answer.
  assert (Hone : handle_one_request E r s = (s', Ok answer)).
  { unfold handle_one_request, do_POST, try_except, answer.
    rewrite Hcmd, Hpath. simpl. rewrite Hraise.
    destruct (isinstance_JSONDecodeError e);
      apply send_error_latin1; by rewrite latin1_app, Hmsg. }
  split; [exact Hone |]. split.
  - unfold answer. by intros ->.
  - split.
    + simpl. rewrite Hone. by destruct (serve_forever E rs s').
    + apply serve_forever_answers.
Qed.

End HttpSuccess.


(** C4 as stated fails: [PUT /health] is neither [GET /health] nor
    [POST /embed], and it is answered 501, not 404. *)
Lemma other_method_not_404 :
  ~ (forall (r : BertEmbeddingServer.request) (s : state),
       (BertEmbeddingServer.command r, BertEmbeddingServer.path r) <> ("GET", "/health") ->
       (BertEmbeddingServer.command r, BertEmbeddingServer.path r) <> ("POST", "/embed") ->
       exists s' a,
         BertEmbeddingServer.handle_one_request Sample.env r s = (s', Ok a) /\
         BertEmbeddingServer.status a = 404).
Proof.
  intros Hclaim.
  destruct (Hclaim (BertEmbeddingServer.Request "PUT" "/health" None EmptyString) fresh)
    as (s' & a & Hrun & Hstatus); [discriminate | discriminate |].
  vm_compute in Hrun. injection Hrun as _ <-. discriminate Hstatus.
Qed.

Lemma other_requests_witness :
  exists a,
    BertEmbeddingServer.handle_one_request Sample.env
      (BertEmbeddingServer.Request "DELETE" "/embed" None EmptyString) fresh
    = (fresh, Ok a) /\
    BertEmbeddingServer.status a = 501.
Proof.
  apply (other_requests Sample.env
           (BertEmbeddingServer.Request "DELETE" "/embed" None EmptyString) fresh);
    discriminate.
Defined.

(** C5 as stated fails: a request whose body is valid and on which loading
    the model raises [JSONDecodeError] (a corrupt file of the model) is
    answered 400, not 500. *)
Lemma model_failure_not_500 :
  ~ (forall (E : Env) (r : BertEmbeddingServer.request) (data : json)
            (s s' : state) (e : exn),
       BertEmbeddingServer.posts E r data ->
       BertEmbeddingServer.embed E r s = (s', Raise e) ->
       exists s'' msg,
         BertEmbeddingServer.handle_one_request E r s
         = (s'', Ok (BertEmbeddingServer.SendError 500 msg))).
Proof.
  intros Hclaim.
  destruct (Hclaim Sample2.env_corrupt (Sample.post Sample.doc_texts)
              (JObj {["texts" := JArr [JStr "hello"; JStr "hi"]]}) fresh
              (State None 1 0 [])
              (Exn JSONDecodeError "Expecting value: line 1 column 1 (char 0)"))
    as (s'' & msg & Hrun).
  - split; [reflexivity |]. split; [reflexivity |]. exists 26. split; reflexivity.
  - reflexivity.
  - vm_compute in Hrun. discriminate Hrun.
Qed.

Lemma post_exception_witness :
  BertEmbeddingServer.handle_one_request Sample.env_missing
    (Sample.post Sample.doc_texts) fresh
  = (State None 1 0 [],
     Ok (BertEmbeddingServer.SendError 500
           ("Internal server error: " +:+ BertEmbeddingServer.not_installed))).
Proof.
  refine (proj1 (post_exception Sample.env_missing (Sample.post Sample.doc_texts)
                   fresh (State None 1 0 [])
                   (Exn RuntimeError BertEmbeddingServer.not_installed)
                   [Sample.post Sample.doc_empty] _ _ _ _)); reflexivity.
Defined.

Section HttpChecks.
Import BertEmbeddingServer.
Context (E : Env).

Lemma get_model_cases (s : state) :
  (exists h, model_var s = Some h /\ get_model E s = (s, Ok h)) \/
  (exists enc, model_var s = None /\
     get_model E s
     = (State (Some (Handle (ctor_calls s) enc)) (S (ctor_calls s))
          (S (constructed s)) (encode_calls s),
        Ok (Handle (ctor_calls s) enc))) \/
  (exists e, model_var s = None /\
     get_model E s
     = (State None (S (ctor_calls s)) (constructed s) (encode_calls s), Raise e)).
Proof.
  destruct (model_var s) as [h |] eqn:Hm.
  - left. exists h. eauto using get_model_loaded.
  - right.
    destruct (new_model E (ctor_calls s) "all-MiniLM-L6-v2") as [enc | e] eqn:Hnew.
    + left. exists enc. eauto using get_model_constructs.
    + right. exists (BertEmbeddingServer.reraise e). eauto using get_model_fails.
Qed.

Lemma get_model_encode_calls (s : state) :
  encode_calls (get_model E s).1 = encode_calls s.
Proof.
  destruct (get_model_cases s)
    as [(h & _ & ->) | [(enc & _ & ->) | (e & _ & ->)]]; reflexivity.
Qed.

(** Both [except] clauses of [do_POST] answer with an error status when
    the exception's message can be encoded. *)
Lemma handler_is_error (e : exn) (s : state) :
  latin1 (str e) = true ->
  exists code msg,
    (if isinstance_JSONDecodeError e
     then send_error E 400 ("Invalid JSON: " +:+ str e)
     else send_error E 500 ("Internal server error: " +:+ str e)) s
    = (s, Ok (SendError code msg)) /\ 400 <= code.
Proof.
  intros Hm. destruct (isinstance_JSONDecodeError e); eexists _, _;
    (split; [apply send_error_latin1; by rewrite latin1_app, Hm | lia]).
Qed.

(** What [int] raises on a header value can be encoded: the value was
    decoded from latin-1. *)
Lemma header_int_latin1 (h : option string) (e : exn) :
  header_int E h = Raise e -> latin1 (str e) = true.
Proof.
  destruct h as [v |]; simpl.
  - apply py_int_latin1, latin1_decode.
  - by intros [= <-].
Qed.

(** C9 as amended, for the HTTP endpoint: a [POST /embed] either carries a
    JSON object whose [texts] is a non-empty array, and then nothing but
    that array is passed to the model; or it is answered with an error
    status and the state is what it was, so the model was neither loaded
    nor called. *)
Theorem post_checks_first (r : request) (s : state) :
  command r = "POST" ->
  path r = "/embed" ->
  (exists data xs,
      posts E r (JObj data) /\ data !! "texts" = Some (JArr xs) /\ xs <> [] /\
      (encode_calls (handle_one_request E r s).1 = encode_calls s \/
       encode_calls (handle_one_request E r s).1 = encode_calls s ++ [JArr xs]))
  \/ (exists code msg,
      handle_one_request E r s = (s, Ok (SendError code msg)) /\ 400 <= code).
Proof.
  intros Hcmd Hpath.
  destruct (header_int E (content_length r)) as [n | e] eqn:Hlen.
  2: { right. unfold handle_one_request, do_POST, try_except, embed, bind, lift.
       rewrite Hcmd, Hpath. simpl. rewrite Hlen.
       apply handler_is_error, (header_int_latin1 _ _ Hlen). }
  destruct (json_loads E (rfile_read n (rfile r))) as [data | e] eqn:Hparse.
  2: { right. unfold handle_one_request, do_POST, try_except, embed, bind, lift.
       rewrite Hcmd, Hpath. simpl. rewrite Hlen, Hparse.
       apply handler_is_error, (json_loads_latin1 E _ _ Hparse). }
  assert (Hpost : posts E r data) by (repeat split; eauto).
  pose proof (handle_post E r data s Hpost) as Hrun.
  set (out := handle_one_request E r s) in *. clearbody out.
  unfold try_except, bind at 1, lift at 1 in Hrun.
  destruct data as [| b | k | f | t | ys | m]; cbn [py_contains] in Hrun;
    try (right; rewrite Hrun; apply handler_is_error; reflexivity).
  - (* a string: [in] is the substring test *)
    right. rewrite Hrun. destruct (bool_decide _); cbn [negb];
      [unfold bind, lift; cbn [py_getitem]; apply handler_is_error; reflexivity
      | eexists _, _; split; [reflexivity | lia]].
  - (* a list: [in] looks for the element 'texts' *)
    right. rewrite Hrun. destruct (existsb (is_JStr "texts") ys); cbn [negb];
      [unfold bind, lift; cbn [py_getitem]; apply handler_is_error; reflexivity
      | eexists _, _; split; [reflexivity | lia]].
  - (* a dict *)
    destruct (m !! "texts") as [v |] eqn:Hv.
    2: { right. rewrite Hrun, bool_decide_eq_false_2 by (apply is_Some_None).
         eexists _, _; split; [reflexivity | lia]. }
    rewrite bool_decide_eq_true_2 in Hrun by eauto. cbn [negb] in Hrun.
    unfold bind at 1, lift at 1 in Hrun. cbn [py_getitem] in Hrun.
    rewrite Hv in Hrun.
    destruct v as [| b | k | f | t | xs | m'];
      try (right; rewrite Hrun; eexists _, _; split; [reflexivity | lia]).
    destruct xs as [| x xs]; cbn [truthy_list negb] in Hrun;
      [right; rewrite Hrun; eexists _, _; split; [reflexivity | lia] |].
    left. exists m, (x :: xs).
    split; [exact Hpost |]. split; [exact Hv |]. split; [done |].
    unfold bind, embeddings_list_of, bind, call_encode, lift in Hrun.
    pose proof (get_model_encode_calls s) as Hcalls.
    destruct (get_model E s) as [s1 [h | e]]; simpl in Hcalls.
    + destruct (encode h (JArr (x :: xs)) _) as [[f | rows] | e];
        cbn [iter_ndarray] in Hrun;
        try destruct (isinstance_JSONDecodeError _);
        rewrite Hrun; right; rewrite ?send_error_state; simpl; by rewrite Hcalls.
    + destruct (isinstance_JSONDecodeError e); rewrite Hrun; left;
        rewrite ?send_error_state; simpl; by rewrite Hcalls.
Qed.

End HttpChecks.

(** C9 as stated fails for the stdin/stdout tool: a [texts] that is a scalar,
    not a list, is not rejected; the tool passes it to the model. *)
Lemma stdio_forwards_scalar :
  ~ (forall (stdin : string) (data : gmap string json) (v : json) (s : state),
       json_loads Sample.env stdin = Ok (JObj data) ->
       data !! "text" = None ->
       data !! "texts" = Some v ->
       isinstance_list v = false ->
       encode_calls (GenerateEmbeddings.main Sample.env stdin s).1 = encode_calls s).
Proof.
  intros Hclaim.
  specialize (Hclaim Sample.doc_texts_scalar {["texts" := JStr "hello"]}
                (JStr "hello") fresh).
  discriminate Hclaim; reflexivity.
Qed.

Lemma post_checks_first_witness :
  (exists data xs,
      BertEmbeddingServer.posts Sample.env (Sample.post Sample.doc_texts_scalar) (JObj data) /\
      data !! "texts" = Some (JArr xs) /\ xs <> [] /\
      (encode_calls (BertEmbeddingServer.handle_one_request Sample.env
                       (Sample.post Sample.doc_texts_scalar) fresh).1 = encode_calls fresh \/
       encode_calls (BertEmbeddingServer.handle_one_request Sample.env
                       (Sample.post Sample.doc_texts_scalar) fresh).1
       = encode_calls fresh ++ [JArr xs]))
  \/ (exists code msg,
      BertEmbeddingServer.handle_one_request Sample.env
        (Sample.post Sample.doc_texts_scalar) fresh
      = (fresh, Ok (BertEmbeddingServer.SendError code msg)) /\ 400 <= code).
Proof.
  apply (post_checks_first Sample.env (Sample.post Sample.doc_texts_scalar) fresh);
    reflexivity.
Defined.

(** ** The model handle *)

Section ThreadsOnce.
Import Threads.
Context (E : Env).

Lemma invariant_init (n : nat) : invariant (init n).
Proof.
  constructor; simpl; try (by left); try discriminate;
    intros i; intros;
    match goal with
    | H : replicate _ _ !! _ = Some _ |- _ => apply lookup_replicate in H as [H _]
    end; subst; discriminate.
Qed.

Lemma lookup_other {A} (l : list A) (i j : nat) (p q p' : A) :
  l !! i = Some p -> l !! j = Some q -> p <> q -> <[i := p']> l !! j = Some q.
Proof.
  intros Hi Hj Hne. rewrite list_lookup_insert_ne; [done |].
  intros ->. congruence.
Qed.

Ltac lookup_thread :=
  repeat match goal with
         | H : <[_ := _]> _ !! _ = Some _ |- _ =>
             apply list_lookup_insert_Some in H as [(<- & ? & _) | (? & H)]
         end.

(** What the invariant says of another thread, once its place is known. *)
Ltac other_thread :=
  repeat match goal with
         | Hl : (forall i p, ?ts !! i = Some p -> holding p = true -> ?l = Some i),
           Hj : ?ts !! ?j = Some ?q, Hh : holding ?q = true |- _ =>
             lazymatch goal with
             | _ : l = Some j |- _ => fail
             | _ => pose proof (Hl j q Hj Hh)
             end
         | Hl : (forall i p, ?ts !! i = Some p -> holding p = true -> ?l = Some i),
           Hj : ?ts !! ?j = Some ?q |- _ =>
             lazymatch goal with
             | _ : l = Some j |- _ => fail
             | _ => pose proof (Hl j q Hj eq_refl)
             end
         end.

(** One field of the invariant after a step of thread [i]. *)
Ltac field :=
  simpl; intros; lookup_thread; simplify_eq; other_thread;
  try congruence;
  try match goal with
      | Hu : _ -> _ \/ _, H : model_var _ = None |- _ \/ _ =>
          destruct (Hu H) as [? | (j & h' & Hj)];
          [by left | right; exists j, h'; eapply lookup_other; eauto; discriminate]
      end;
  eauto;
  try match goal with
      | H : model_var ?g = _ |- context [model_var ?g] => rewrite H; eauto
      end.

Lemma invariant_step (c c' : config) : invariant c -> step E c c' -> invariant c'.
Proof.
  intros [Hlock Hcon Hstore Hloaded Hunl Hrel Hret Hretd] [i p Hi Hstep].
  destruct c as [g l ts]. simpl in *.
  destruct p as [| | | | | h | [e |] | | m | e]; simpl in Hstep.
  - (* a call begins *)
    injection Hstep as <-. constructor; field.
  - (* line 33 *)
    case_eq (model_var g); [intros h0 Hm | intros Hm]; rewrite Hm in Hstep;
      injection Hstep as <-; constructor; field.
  - (* line 34: the lock is taken only when it is free *)
    destruct l as [k |]; [discriminate |]. injection Hstep as <-.
    constructor; field.
  - (* line 35 *)
    pose proof (Hlock i _ Hi eq_refl) as Hmine.
    case_eq (model_var g); [intros h0 Hm | intros Hm]; rewrite Hm in Hstep;
      injection Hstep as <-.
    + constructor; field.
    + assert (Hzero : constructed g = 0%nat).
      { destruct (Hunl Hm) as [Hz | (j & h & Hj)]; [done |].
        pose proof (Hlock j _ Hj eq_refl). congruence. }
      constructor; field.
  - (* line 39: the constructor runs *)
    pose proof (Hlock i _ Hi eq_refl) as Hmine.
    destruct (Hcon i Hi) as [Hm Hzero].
    unfold construct in Hstep.
    destruct (new_model E (ctor_calls g) "all-MiniLM-L6-v2") as [enc | e];
      injection Hstep as <-; constructor; field.
    right. eexists i, _. apply list_lookup_insert_eq. by eapply lookup_lt_Some.
  - (* line 39: the assignment *)
    pose proof (Hlock i _ Hi eq_refl) as Hmine.
    destruct (Hstore i _ Hi) as [Hm Hone].
    injection Hstep as <-. constructor; field.
    match goal with
    | H : ts !! _ = Some (Returned _) |- _ =>
        destruct (Hretd _ _ H) as [[? ->] ?]; congruence
    end.
  - (* the [with] block is left by an exception *)
    pose proof (Hlock i _ Hi eq_refl) as Hmine.
    injection Hstep as <-. constructor; field.
  - (* the [with] block is left normally *)
    pose proof (Hlock i _ Hi eq_refl) as Hmine.
    injection Hstep as <-. constructor; field.
  - (* line 50 *)
    injection Hstep as <-. constructor; field.
  - (* a later call begins *)
    injection Hstep as <-. constructor; field.
  - injection Hstep as <-. constructor; field.
Qed.

Lemma invariant_reachable (n : nat) (c : config) : reachable E n c -> invariant c.
Proof.
  induction 1 as [| c c' _ IH Hstep];
    [apply invariant_init | exact (invariant_step _ _ IH Hstep)].
Qed.

(** The schedule-driven runs are interleavings. *)
Lemma run_reachable (n : nat) (sched : list nat) (c : config) :
  reachable E n c -> reachable E n (run E sched c).
Proof.
  revert c. induction sched as [| i sched IH]; intros c Hc; simpl; [done |].
  destruct (threads c !! i) as [p |] eqn:Hi; [| by apply IH].
  destruct (step_of E i p c) as [c' |] eqn:Hstep; [| by apply IH].
  apply IH. eapply reach_step; [exact Hc |]. by econstructor.
Qed.

End ThreadsOnce.

(** *** Properties of the state that every operation keeps *)

Section Kept.
Context (I : state -> Prop).

Lemma preserves_ret {A} (a : A) : preserves I (ret a).
Proof. by intros s Hs. Qed.

Lemma preserves_raise {A} (e : exn) : preserves I (@raise A e).
Proof. by intros s Hs. Qed.

Lemma preserves_lift {A} (r : result A) : preserves I (lift r).
Proof. by intros s Hs. Qed.

Lemma preserves_bind {A B} (c : M A) (k : A -> M B) :
  preserves I c -> (forall a, preserves I (k a)) -> preserves I (bind c k).
Proof.
  intros Hc Hk s Hs. unfold bind. specialize (Hc s Hs).
  destruct (c s) as [s' [a | e]]; [by apply Hk | done].
Qed.

Lemma preserves_try {A} (c : M A) (h : exn -> M A) :
  preserves I c -> (forall e, preserves I (h e)) -> preserves I (try_except c h).
Proof.
  intros Hc Hh s Hs. unfold try_except. specialize (Hc s Hs).
  destruct (c s) as [s' [a | e]]; [done | by apply Hh].
Qed.

End Kept.

Ltac kept :=
  repeat first
    [ assumption
    | apply preserves_ret
    | apply preserves_raise
    | apply preserves_lift
    | apply preserves_bind; [| intros ?]
    | apply preserves_try; [| intros ?]
    | match goal with
      | H : forall h x kw, preserves _ (call_encode h x kw) |- _ => apply H
      | |- preserves _ (if ?b then _ else _) => destruct b
      | |- preserves _ (match ?x with _ => _ end) => destruct x
      end ].

Section KeptByTheScripts.
Context (E : Env) (I : state -> Prop).
Hypothesis Hload : preserves I (GenerateEmbeddings.load_model E).
Hypothesis Hget : preserves I (BertEmbeddingServer.get_model E).
Hypothesis Hencode : forall h x kw, preserves I (call_encode h x kw).

Lemma main_keeps (stdin : string) (s : state) :
  I s -> I (GenerateEmbeddings.main E stdin s).1.
Proof.
  intros Hs.
  assert (Hrespond : preserves I (GenerateEmbeddings.respond E stdin)).
  { unfold GenerateEmbeddings.respond, GenerateEmbeddings.generate_embedding,
      GenerateEmbeddings.generate_batch_embeddings. kept. }
  specialize (Hrespond s Hs). unfold GenerateEmbeddings.main.
  by destruct (GenerateEmbeddings.respond E stdin s) as [s' [a | e]].
Qed.

Lemma handle_keeps (r : BertEmbeddingServer.request) :
  preserves I (BertEmbeddingServer.handle_one_request E r).
Proof.
  unfold BertEmbeddingServer.handle_one_request, BertEmbeddingServer.do_GET,
    BertEmbeddingServer.do_POST, BertEmbeddingServer.send_error,
    BertEmbeddingServer.embed, BertEmbeddingServer.embeddings_list_of.
  kept.
Qed.

Lemma serve_keeps (rs : list BertEmbeddingServer.request) (s : state) :
  I s -> I (BertEmbeddingServer.serve_forever E rs s).1.
Proof.
  revert s. induction rs as [| r rs IH]; intros s Hs; simpl; [done |].
  pose proof (handle_keeps r s Hs) as H1.
  destruct (BertEmbeddingServer.handle_one_request E r s) as [s1 a].
  specialize (IH s1 H1).
  by destruct (BertEmbeddingServer.serve_forever E rs s1) as [s2 answers].
Qed.

End KeptByTheScripts.

Section Once.
Context (E : Env).

Lemma load_model_loaded (s : state) (h : SentenceTransformer) :
  model_var s = Some h -> GenerateEmbeddings.load_model E s = (s, Ok h).
Proof.
  intros Hm. unfold GenerateEmbeddings.load_model, bind, get_model_var.
  by rewrite Hm.
Qed.

Lemma load_model_constructs (s : state)
    (enc : json -> encode_kwargs -> result ndarray) :
  model_var s = None ->
  new_model E (ctor_calls s) GenerateEmbeddings.MODEL_NAME = Ok enc ->
  GenerateEmbeddings.load_model E s
  = (State (Some (Handle (ctor_calls s) enc)) (S (ctor_calls s))
       (S (constructed s)) (encode_calls s),
     Ok (Handle (ctor_calls s) enc)).
Proof.
  intros Hm Hnew. unfold GenerateEmbeddings.load_model, bind, get_model_var, construct.
  rewrite Hm, Hnew. reflexivity.
Qed.

Lemma load_model_once : preserves once (GenerateEmbeddings.load_model E).
Proof.
  intros s Hs. destruct (model_var s) as [h |] eqn:Hm.
  - by rewrite (load_model_loaded _ _ Hm).
  - destruct (new_model E (ctor_calls s) GenerateEmbeddings.MODEL_NAME)
      as [enc | e] eqn:Hnew.
    + rewrite (load_model_constructs _ _ Hm Hnew). unfold once in *. simpl.
      by rewrite Hs, Hm.
    + rewrite (load_model_failure _ _ _ Hm Hnew). unfold once in *. simpl.
      by rewrite Hs, Hm.
Qed.

Lemma get_model_once : preserves once (BertEmbeddingServer.get_model E).
Proof.
  intros s Hs. unfold once in *.
  destruct (get_model_cases E s)
    as [(h & _ & ->) | [(enc & Hm & ->) | (e & Hm & ->)]]; simpl;
    [done | by rewrite Hs, Hm..].
Qed.

Lemma call_encode_once h x kw : preserves once (call_encode h x kw).
Proof. by intros s Hs. Qed.

Lemma load_model_holds h : preserves (holds h) (GenerateEmbeddings.load_model E).
Proof. intros s [Hm Hc]. by rewrite (load_model_loaded _ _ Hm). Qed.

Lemma get_model_holds h : preserves (holds h) (BertEmbeddingServer.get_model E).
Proof. intros s [Hm Hc]. by rewrite (get_model_loaded _ _ _ Hm). Qed.

Lemma call_encode_holds h h' x kw : preserves (holds h) (call_encode h' x kw).
Proof. by intros s Hs. Qed.

Lemma once_at_most (s : state) : once s -> (constructed s <= 1)%nat.
Proof. unfold once. intros ->. destruct (model_var s); lia. Qed.

Lemma once_holds (s : state) (h : SentenceTransformer) :
  once s -> model_var s = Some h -> holds h s.
Proof. unfold once, holds. intros Hs Hm. by rewrite Hs, Hm. Qed.

Lemma once_fresh : once fresh.
Proof. reflexivity. Qed.

(** A call that returned a handle left it in the global, and the next call
    returns it without touching the state. *)
Lemma load_model_again (s s1 : state) (h : SentenceTransformer) :
  GenerateEmbeddings.load_model E s = (s1, Ok h) ->
  model_var s1 = Some h /\ GenerateEmbeddings.load_model E s1 = (s1, Ok h).
Proof.
  intros Hrun.
  assert (Hm : model_var s1 = Some h).
  { destruct (model_var s) as [h0 |] eqn:Hm.
    - rewrite (load_model_loaded _ _ Hm) in Hrun. by injection Hrun as <- <-.
    - destruct (new_model E (ctor_calls s) GenerateEmbeddings.MODEL_NAME)
        as [enc | e] eqn:Hnew.
      + rewrite (load_model_constructs _ _ Hm Hnew) in Hrun.
        by injection Hrun as <- <-.
      + by rewrite (load_model_failure _ _ _ Hm Hnew) in Hrun. }
  split; [exact Hm | by apply load_model_loaded].
Qed.

Lemma get_model_again (s s1 : state) (h : SentenceTransformer) :
  BertEmbeddingServer.get_model E s = (s1, Ok h) ->
  model_var s1 = Some h /\ BertEmbeddingServer.get_model E s1 = (s1, Ok h).
Proof.
  intros Hrun.
  assert (Hm : model_var s1 = Some h).
  { destruct (get_model_cases E s)
      as [(h0 & Hm & Heq) | [(enc & Hm & Heq) | (e & Hm & Heq)]];
      rewrite Heq in Hrun; [| | discriminate Hrun];
      by injection Hrun as <- <-. }
  split; [exact Hm | by apply get_model_loaded].
Qed.

End Once.

Section KeptByTheCalls.
Context (E : Env) (I : state -> Prop).
Hypothesis Hload : preserves I (GenerateEmbeddings.load_model E).
Hypothesis Hencode : forall h x kw, preserves I (call_encode h x kw).

Lemma perform_keeps (op : GenerateEmbeddings.operation) :
  preserves I (GenerateEmbeddings.perform E op).
Proof.
  destruct op; unfold GenerateEmbeddings.perform,
    GenerateEmbeddings.generate_embedding,
    GenerateEmbeddings.generate_batch_embeddings; kept.
Qed.

Lemma perform_all_keeps (ops : list GenerateEmbeddings.operation) (s : state) :
  I s -> I (GenerateEmbeddings.perform_all E ops s).
Proof.
  revert s. induction ops as [| op ops IH]; intros s Hs; simpl; [done |].
  apply IH. by apply perform_keeps.
Qed.

End KeptByTheCalls.

Section ConstructedOnce.
Import BertEmbeddingServer.
Context (E : Env).

(** C10: the model is constructed at most once in a process.
    - The stdin/stdout tool, started fresh, ends with at most one model
      constructed, and [load_model] returns the global's model without
      touching the state once there is one.
    - [load_model] constructs the model when the global is [None] and the
      constructor returns, stores it in the global and returns it; a call
      that returned a handle is followed by calls that return the same
      handle and change nothing.  The first of the module's operations in a
      process constructs the model when the constructor returns; after any
      sequence of operations at most one model has been constructed, and a
      model the global holds is still the one it holds, and the only one
      constructed, after any further operations.
    - The server's [get_model] constructs the model when the global is
      [None] and the constructor returns, and from then on returns that
      same object and leaves the state alone; after any sequence of
      requests at most one model has been constructed, and a model the
      global holds is still the one it holds, and the only one constructed,
      after any further requests.
    - With any number of threads running [get_model] in any interleaving,
      at most one model has been constructed, and every call that has
      returned has returned the object the global holds. *)
Theorem model_constructed_once :
  (forall stdin, (constructed (GenerateEmbeddings.main E stdin fresh).1 <= 1)%nat) /\
  (forall s h, model_var s = Some h ->
     GenerateEmbeddings.load_model E s = (s, Ok h)) /\
  (forall s enc,
     model_var s = None ->
     new_model E (ctor_calls s) GenerateEmbeddings.MODEL_NAME = Ok enc ->
     GenerateEmbeddings.load_model E s
     = (State (Some (Handle (ctor_calls s) enc)) (S (ctor_calls s))
          (S (constructed s)) (encode_calls s),
        Ok (Handle (ctor_calls s) enc))) /\
  (forall s s1 h,
     GenerateEmbeddings.load_model E s = (s1, Ok h) ->
     model_var s1 = Some h /\ GenerateEmbeddings.load_model E s1 = (s1, Ok h)) /\
  (forall op enc,
     new_model E 0 GenerateEmbeddings.MODEL_NAME = Ok enc ->
     holds (Handle 0 enc) (GenerateEmbeddings.perform E op fresh).1) /\
  (forall ops,
     (constructed (GenerateEmbeddings.perform_all E ops fresh) <= 1)%nat /\
     forall h ops',
       model_var (GenerateEmbeddings.perform_all E ops fresh) = Some h ->
       holds h (GenerateEmbeddings.perform_all E ops'
                  (GenerateEmbeddings.perform_all E ops fresh))) /\
  (forall s enc,
     model_var s = None ->
     new_model E (ctor_calls s) "all-MiniLM-L6-v2" = Ok enc ->
     get_model E s
     = (State (Some (Handle (ctor_calls s) enc)) (S (ctor_calls s))
          (S (constructed s)) (encode_calls s),
        Ok (Handle (ctor_calls s) enc))) /\
  (forall s h, model_var s = Some h -> get_model E s = (s, Ok h)) /\
  (forall s s1 h,
     get_model E s = (s1, Ok h) ->
     model_var s1 = Some h /\ get_model E s1 = (s1, Ok h)) /\
  (forall rs,
     (constructed (serve_forever E rs fresh).1 <= 1)%nat /\
     forall h rs',
       model_var (serve_forever E rs fresh).1 = Some h ->
       holds h (serve_forever E rs' (serve_forever E rs fresh).1).1) /\
  (forall n c,
     Threads.reachable E n c ->
     (constructed (Threads.globals c) <= 1)%nat /\
     forall i m,
       Threads.threads c !! i = Some (Threads.Returned m) ->
       is_Some m /\ m = model_var (Threads.globals c)).
Proof.
  split_and!.
  - intros stdin. apply once_at_most.
    apply main_keeps;
      auto using load_model_once, get_model_once, call_encode_once, once_fresh.
  - apply load_model_loaded.
  - apply load_model_constructs.
  - apply load_model_again.
  - intros op enc Hnew.
    pose proof (load_model_constructs E fresh enc eq_refl Hnew) as Hload.
    destruct op; unfold GenerateEmbeddings.perform,
      GenerateEmbeddings.generate_embedding,
      GenerateEmbeddings.generate_batch_embeddings, bind, call_encode;
      rewrite Hload; simpl; [| destruct (enc text _) | destruct (enc texts _)];
      by split.
  - intros ops.
    assert (Hops : once (GenerateEmbeddings.perform_all E ops fresh)).
    { apply perform_all_keeps;
        auto using load_model_once, call_encode_once, once_fresh. }
    split; [by apply once_at_most |].
    intros h ops' Hm.
    apply perform_all_keeps;
      auto using load_model_holds, call_encode_holds, once_holds.
  - apply get_model_constructs.
  - apply get_model_loaded.
  - apply get_model_again.
  - intros rs.
    assert (Hrs : once (serve_forever E rs fresh).1).
    { apply serve_keeps;
        auto using load_model_once, get_model_once, call_encode_once, once_fresh. }
    split; [by apply once_at_most |].
    intros h rs' Hm.
    apply serve_keeps;
      auto using load_model_holds, get_model_holds, call_encode_holds, once_holds.
  - intros n c Hc. apply invariant_reachable in Hc. split.
    + destruct (model_var (Threads.globals c)) as [h |] eqn:Hm.
      * by rewrite (Threads.inv_loaded _ Hc h Hm).
      * destruct (Threads.inv_unloaded _ Hc Hm) as [-> | (i & h & Hi)]; [lia |].
        destruct (Threads.inv_store _ Hc i h Hi) as [_ ->]. lia.
    + intros i m Hi. by destruct (Threads.inv_returned _ Hc i m Hi).
Qed.

End ConstructedOnce.

Example race_outcome :
  Threads.run Sample.env Sample.race (Threads.init 2)
  = Threads.Config (State (Some (Handle 0 Sample.encode)) 1 1 []) None
      [Threads.Returned (Some (Handle 0 Sample.encode));
       Threads.Returned (Some (Handle 0 Sample.encode))].
Proof. vm_compute. reflexivity. Qed.

Lemma model_constructed_once_witness :
  (constructed
     (Threads.globals (Threads.run Sample.env Sample.race (Threads.init 2))) <= 1)%nat /\
  forall i m,
    Threads.threads (Threads.run Sample.env Sample.race (Threads.init 2)) !! i
    = Some (Threads.Returned m) ->
    is_Some m /\
    m = model_var (Threads.globals (Threads.run Sample.env Sample.race (Threads.init 2))).
Proof.
  apply (proj2 (proj2 (proj2 (proj2 (proj2 (proj2 (proj2 (proj2 (proj2 (proj2
           (model_constructed_once Sample.env)))))))))) 2%nat).
  apply run_reachable. apply Threads.reach_init.
Defined.

(** ** The provider's contract, seen through the scripts *)

Section Provider.
Context (E : Env) (embed : string -> list float).

Lemma tolist_batch (ts : list string) :
  tolist (NdArray (vector ∘ embed <$> ts)) = JArr (embedding_of embed <$> ts).
Proof.
  simpl. f_equal. rewrite <- list_fmap_compose.
  apply list_fmap_ext. intros i t _. apply tolist_vector.
Qed.

Lemma load_model_available (s : state) :
  available E GenerateEmbeddings.MODEL_NAME embed s ->
  exists h s',
    GenerateEmbeddings.load_model E s = (s', Ok h) /\
    model_var s' = Some h /\ meets_contract embed (encode h).
Proof.
  unfold available. destruct (model_var s) as [h |] eqn:Hm.
  - intros Hh. exists h, s. by rewrite (load_model_loaded _ _ _ Hm).
  - intros (enc & Hnew & Henc). eexists _, _.
    by rewrite (load_model_constructs _ _ _ Hm Hnew).
Qed.

Lemma get_model_available (s : state) :
  available E "all-MiniLM-L6-v2" embed s ->
  exists h s',
    BertEmbeddingServer.get_model E s = (s', Ok h) /\
    model_var s' = Some h /\ meets_contract embed (encode h).
Proof.
  unfold available. destruct (model_var s) as [h |] eqn:Hm.
  - intros Hh. exists h, s. by rewrite (get_model_loaded _ _ _ Hm).
  - intros (enc & Hnew & Henc). eexists _, _.
    by rewrite (get_model_constructs _ _ _ Hm Hnew).
Qed.

(** A state whose global holds a model that meets the contract. *)
Lemma loaded_available (name : string) (s : state) (h : SentenceTransformer) :
  model_var s = Some h -> meets_contract embed (encode h) ->
  available E name embed s.
Proof. unfold available. by intros ->. Qed.

Lemma generate_embedding_value (t : string) (s : state) :
  available E GenerateEmbeddings.MODEL_NAME embed s ->
  exists s',
    GenerateEmbeddings.generate_embedding E (JStr t) s = (s', Ok (embedding_of embed t)) /\
    available E GenerateEmbeddings.MODEL_NAME embed s'.
Proof.
  intros Hs. destruct (load_model_available s Hs) as (h & s1 & Hload & Hm & Hh).
  pose proof Hh as (_ & Hone & _).
  unfold GenerateEmbeddings.generate_embedding, bind, call_encode.
  rewrite Hload, Hone. eexists. split.
  - unfold ret. by rewrite tolist_vector.
  - by apply (loaded_available _ _ h).
Qed.

Lemma generate_batch_embeddings_value (ts : list string) (s : state) :
  available E GenerateEmbeddings.MODEL_NAME embed s ->
  exists s',
    GenerateEmbeddings.generate_batch_embeddings E (JArr (JStr <$> ts)) s
    = (s', Ok (JArr (embedding_of embed <$> ts))) /\
    available E GenerateEmbeddings.MODEL_NAME embed s'.
Proof.
  intros Hs. destruct (load_model_available s Hs) as (h & s1 & Hload & Hm & Hh).
  pose proof Hh as (_ & _ & Hbatch).
  unfold GenerateEmbeddings.generate_batch_embeddings, bind, call_encode.
  rewrite Hload, Hbatch. eexists. split.
  - unfold ret. by rewrite tolist_batch.
  - by apply (loaded_available _ _ h).
Qed.

Lemma embeddings_list_of_value (ts : list string) (s : state) :
  available E "all-MiniLM-L6-v2" embed s ->
  exists s',
    BertEmbeddingServer.embeddings_list_of E (JArr (JStr <$> ts)) s
    = (s', Ok (embedding_of embed <$> ts)).
Proof.
  intros Hs. destruct (get_model_available s Hs) as (h & s1 & Hget & Hm & Hh).
  pose proof Hh as (_ & _ & Hbatch).
  unfold BertEmbeddingServer.embeddings_list_of, bind, call_encode, lift.
  rewrite Hget, Hbatch. eexists. unfold ret. simpl. do 2 f_equal.
  rewrite <- list_fmap_compose. apply list_fmap_ext. intros i t _.
  apply tolist_vector.
Qed.

Lemma embeddings_are_vectors (ts : list string) :
  (forall t, length (embed t) = 384%nat) ->
  Forall is_vector384 (embedding_of embed <$> ts).
Proof.
  intros Hlen. apply Forall_fmap, Forall_forall. intros t _.
  exists (embed t). split; [reflexivity | apply Hlen].
Qed.

(** C1: with the provider at hand, the batch operation on a non-empty list
    of strings returns a list of the same length whose elements are lists of
    exactly 384 floats.  This holds of [generate_batch_embeddings] in the
    stdin/stdout tool and of lines 100-106 of the server's [do_POST]. *)
Theorem batch_shape (ts : list string) (s : state) :
  ts <> [] ->
  (available E GenerateEmbeddings.MODEL_NAME embed s ->
   exists vs s',
     GenerateEmbeddings.generate_batch_embeddings E (JArr (JStr <$> ts)) s
     = (s', Ok (JArr vs)) /\
     length vs = length ts /\ Forall is_vector384 vs) /\
  (available E "all-MiniLM-L6-v2" embed s ->
   exists vs s',
     BertEmbeddingServer.embeddings_list_of E (JArr (JStr <$> ts)) s = (s', Ok vs) /\
     length vs = length ts /\ Forall is_vector384 vs).
Proof.
  intros _. split; intros Hs.
  - destruct (generate_batch_embeddings_value ts s Hs) as (s' & Hrun & Hs').
    exists (embedding_of embed <$> ts), s'. split; [exact Hrun |].
    split; [apply length_fmap |].
    apply embeddings_are_vectors.
    destruct (load_model_available s Hs) as (h & _ & _ & _ & Hlen & _). exact Hlen.
  - destruct (embeddings_list_of_value ts s Hs) as (s' & Hrun).
    exists (embedding_of embed <$> ts), s'. split; [exact Hrun |].
    split; [apply length_fmap |].
    apply embeddings_are_vectors.
    destruct (get_model_available s Hs) as (h & _ & _ & _ & Hlen & _). exact Hlen.
Qed.

(** C6: with the provider at hand, the single operation on a text [t] and
    the batch operation on the one-element list [[t]] give the same vector:
    whether both start from the same state, the batch call follows the
    single call, or the single call follows the batch call. *)
Theorem single_matches_batch (t : string) (s : state) :
  available E GenerateEmbeddings.MODEL_NAME embed s ->
  exists v vs s1 s2,
    GenerateEmbeddings.generate_embedding E (JStr t) s = (s1, Ok v) /\
    GenerateEmbeddings.generate_batch_embeddings E (JArr [JStr t]) s
    = (s2, Ok (JArr vs)) /\
    vs !! 0%nat = Some v /\
    (GenerateEmbeddings.generate_batch_embeddings E (JArr [JStr t]) s1).2
    = Ok (JArr vs) /\
    (GenerateEmbeddings.generate_embedding E (JStr t) s2).2 = Ok v.
Proof.
  intros Hs.
  destruct (generate_embedding_value t s Hs) as (s1 & Hone & Hs1).
  destruct (generate_batch_embeddings_value [t] s Hs) as (s2 & Hbatch & Hs2).
  destruct (generate_batch_embeddings_value [t] s1 Hs1) as (s3 & Hbatch' & _).
  destruct (generate_embedding_value t s2 Hs2) as (s4 & Hone' & _).
  change (JStr <$> [t]) with [JStr t] in *.
  exists (embedding_of embed t), [embedding_of embed t], s1, s2.
  split; [exact Hone |]. split; [exact Hbatch |]. split; [reflexivity |].
  split; [by rewrite Hbatch' | by rewrite Hone'].
Qed.

End Provider.

Lemma strings_of_strings (ts : list string) :
  Sample.strings_of (JStr <$> ts) = Some ts.
Proof. induction ts as [| t ts IH]; csimpl; [done | by rewrite IH]. Qed.

(** The stand-in model meets the contract. *)
Lemma sample_meets_contract : meets_contract Sample.embed Sample.encode.
Proof.
  split; [| split].
  - intros t. apply length_replicate.
  - reflexivity.
  - intros ts kw. unfold Sample.encode. by rewrite strings_of_strings.
Qed.

Lemma sample_available (name : string) : available Sample.env name Sample.embed fresh.
Proof. exists Sample.encode. split; [reflexivity | apply sample_meets_contract]. Qed.

Lemma batch_shape_witness :
  exists vs s',
    GenerateEmbeddings.generate_batch_embeddings Sample.env
      (JArr (JStr <$> ["hello"; "hi"])) fresh
    = (s', Ok (JArr vs)) /\
    length vs = length ["hello"; "hi"] /\ Forall is_vector384 vs.
Proof.
  apply (batch_shape Sample.env Sample.embed ["hello"; "hi"] fresh);
    [discriminate | apply sample_available].
Defined.

Lemma single_matches_batch_witness :
  exists v vs s1 s2,
    GenerateEmbeddings.generate_embedding Sample.env (JStr "hello") fresh = (s1, Ok v) /\
    GenerateEmbeddings.generate_batch_embeddings Sample.env (JArr [JStr "hello"]) fresh
    = (s2, Ok (JArr vs)) /\
    vs !! 0%nat = Some v /\
    (GenerateEmbeddings.generate_batch_embeddings Sample.env (JArr [JStr "hello"]) s1).2
    = Ok (JArr vs) /\
    (GenerateEmbeddings.generate_embedding Sample.env (JStr "hello") s2).2 = Ok v.
Proof.
  apply (single_matches_batch Sample.env Sample.embed "hello" fresh).
  apply sample_available.
Defined.

(** ** Runs in the sample environment *)

Example get_health :
  BertEmbeddingServer.handle_one_request Sample.env
    (BertEmbeddingServer.Request "GET" "/health" None EmptyString) fresh
  = (fresh, Ok (BertEmbeddingServer.SendJson 200 BertEmbeddingServer.health)).
Proof. reflexivity. Qed.

(** A body that is valid JSON and not an object: [in] raises on a number. *)
Example post_number :
  BertEmbeddingServer.handle_one_request Sample.env (Sample.post Sample.doc_number) fresh
  = (fresh,
     Ok (BertEmbeddingServer.SendError 500
           "Internal server error: argument of type 'int' is not iterable")).
Proof. reflexivity. Qed.

(** The server passes an array of numbers on to the model. *)
Example post_numbers :
  BertEmbeddingServer.handle_one_request Sample.env
    (Sample.post Sample.doc_texts_numbers) fresh
  = (State (Some (Handle 0 Sample.encode)) 1 1 [JArr [JInt 1]],
     Ok (BertEmbeddingServer.SendError 500
           "Internal server error: text input must be of type str")).
Proof. reflexivity. Qed.

(** [{"text": "hello"}] on standard input. *)
Example stdio_text :
  GenerateEmbeddings.main Sample.env Sample.doc_text fresh
  = (State (Some (Handle 0 Sample.encode)) 1 1 [JStr "hello"],
     GenerateEmbeddings.Outcome
       [JObj (<["dimension" := JInt 384]>
              {["embedding" := embedding_of Sample.embed "hello"]})] [] 0).
Proof. vm_compute. reflexivity. Qed.

(** [{"texts": "hello"}] on standard input: the string goes to the model as
    it is, and the 384 floats of its vector are counted as 384 embeddings. *)
Example stdio_scalar_texts :
  GenerateEmbeddings.main Sample.env Sample.doc_texts_scalar fresh
  = (State (Some (Handle 0 Sample.encode)) 1 1 [JStr "hello"],
     GenerateEmbeddings.Outcome
       [JObj (<["count" := JInt 384]>
              {["embeddings" := embedding_of Sample.embed "hello"]})] [] 0).
Proof. vm_compute. reflexivity. Qed.

(** The message of line 49 is 47 characters long, four of them quotes. *)
Example invalid_request_length :
  String.length GenerateEmbeddings.invalid_request = 47%nat.
Proof. reflexivity. Qed.

(** Malformed JSON on standard input. *)
Example stdio_malformed :
  GenerateEmbeddings.main Sample.env "{" fresh
  = (fresh,
     GenerateEmbeddings.Outcome
       [JObj {["error" := JStr "Expecting value: line 1 column 1 (char 0)"]}]
       ["Error: Expecting value: line 1 column 1 (char 0)" +:+ nl] 1).
Proof. reflexivity. Qed.

(** A model whose files sit under a path with a character outside latin-1:
    the message of the failed load cannot go into the status line, the
    request gets no response, and the next request is served. *)
Example post_unencodable_message :
  (BertEmbeddingServer.serve_forever Sample2.env_unicode
     [Sample.post Sample.doc_texts;
      BertEmbeddingServer.Request "GET" "/health" None EmptyString] fresh)
  = (State None 1 0 [],
     [Raise (Sample.unicode_error EmptyString);
      Ok (BertEmbeddingServer.SendJson 200 BertEmbeddingServer.health)]).
Proof. vm_compute. reflexivity. Qed.

(** The tool run where the package is not installed: nothing on standard
    output. *)
Example script_without_package :
  GenerateEmbeddings.script Sample.env_missing Sample.doc_text
  = (fresh,
     GenerateEmbeddings.Outcome []
       ["Traceback (most recent call last):" +:+ nl
          +:+ "ModuleNotFoundError: No module named 'sentence_transformers'" +:+ nl]
       1).
Proof. reflexivity. Qed.

(** Two calls of [load_model] in one process build one model. *)
Example load_model_twice :
  GenerateEmbeddings.perform_all Sample.env
    [GenerateEmbeddings.LoadModel; GenerateEmbeddings.LoadModel;
     GenerateEmbeddings.GenerateEmbedding (JStr "hello")] fresh
  = State (Some (Handle 0 Sample.encode)) 1 1 [JStr "hello"].
Proof. reflexivity. Qed.

(** * Further properties of the two scripts *)

(** ** What a computation returns *)

Section Returns.
Context {A : Type} (P : A -> Prop).

Lemma returns_ret (a : A) : P a -> returns P (ret a).
Proof. intros Ha s s' a' Hrun. by injection Hrun as _ <-. Qed.

Lemma returns_raise (e : exn) : returns P (raise e).
Proof. intros s s' a Hrun. discriminate Hrun. Qed.

Lemma returns_bind {B} (c : M B) (k : B -> M A) :
  (forall b, (exists s s', c s = (s', Ok b)) -> returns P (k b)) ->
  returns P (bind c k).
Proof.
  intros Hk s s' a. unfold bind.
  destruct (c s) as [s1 [b | e]] eqn:Hc; [| discriminate].
  apply Hk. eauto.
Qed.

Lemma returns_try (c : M A) (h : exn -> M A) :
  returns P c -> (forall e, returns P (h e)) -> returns P (try_except c h).
Proof.
  intros Hc Hh s s' a. unfold try_except.
  destruct (c s) as [s1 [a1 | e]] eqn:Hrun.
  - intros Heq. injection Heq as _ <-. by eapply Hc.
  - apply Hh.
Qed.

End Returns.

Lemma lift_returned {A} (r : result A) (a : A) :
  (exists s s', lift r s = (s', Ok a)) -> r = Ok a.
Proof. intros (s & s' & Hrun). by injection Hrun. Qed.

(** ** The stdin/stdout tool, beyond the claims *)

Section StdioMore.
Import GenerateEmbeddings.
Context (E : Env).

(** The three documents [main]'s [try] body can bind to [response]. *)
Lemma respond_returns (stdin : string) :
  returns
    (fun d =>
       (exists v n, py_len v = Ok n /\
          d = JObj (<["dimension" := JInt n]> {["embedding" := v]})) \/
       (exists v n, py_len v = Ok n /\
          d = JObj (<["count" := JInt n]> {["embeddings" := v]})) \/
       d = JObj {["error" := JStr invalid_request]})
    (respond E stdin).
Proof.
  unfold respond.
  apply returns_bind. intros request _.
  apply returns_bind. intros [|] _.
  - apply returns_bind. intros text _.
    apply returns_bind. intros embedding _.
    apply returns_bind. intros dimension Hlen%lift_returned.
    apply returns_ret. left. eauto.
  - apply returns_bind. intros [|] _.
    + apply returns_bind. intros texts _.
      apply returns_bind. intros embeddings _.
      apply returns_bind. intros count Hlen%lift_returned.
      apply returns_ret. right. left. eauto.
    + apply returns_ret. by right; right.
Qed.

(** X1: a run of the script whose imports succeed prints exactly one
    document, a JSON object of one of three shapes: [{embedding, dimension}]
    with [dimension] the length of [embedding], [{embeddings, count}] with
    [count] the length of [embeddings], or [{error}]; when the body of
    [main]'s [try] raised, the document is the error object of that
    exception and standard error has its line.  A run whose imports fail
    prints no document and writes the traceback to standard error.  The exit
    status is 1 exactly when the imports failed or the [try] body raised,
    and 0 exactly when the imports succeeded and the [try] body returned. *)
Theorem main_one_document (stdin : string) :
  match import_error E with
  | Some e0 => script E stdin = (fresh, Outcome [] [traceback E e0] 1)
  | None =>
      exists d,
        stdout (script E stdin).2 = [d] /\
        (((exists v n, py_len v = Ok n /\
             d = JObj (<["dimension" := JInt n]> {["embedding" := v]})) \/
          (exists v n, py_len v = Ok n /\
             d = JObj (<["count" := JInt n]> {["embeddings" := v]})) \/
          d = JObj {["error" := JStr invalid_request]}) /\
         (respond E stdin fresh).2 = Ok d /\
         stderr (script E stdin).2 = [] /\ exit_code (script E stdin).2 = 0
         \/
         exists e,
           (respond E stdin fresh).2 = Raise e /\
           d = JObj {["error" := JStr (str e)]} /\
           stderr (script E stdin).2 = ["Error: " +:+ str e +:+ nl] /\
           exit_code (script E stdin).2 = 1)
  end /\
  (exit_code (script E stdin).2 = 1 <->
   is_Some (import_error E) \/ exists e, (respond E stdin fresh).2 = Raise e) /\
  (exit_code (script E stdin).2 = 0 <->
   import_error E = None /\ exists d, (respond E stdin fresh).2 = Ok d).
Proof.
  pose proof (respond_returns stdin fresh) as Hshape. unfold script, main.
  destruct (import_error E) as [e0 |]; simpl.
  - split; [reflexivity |]. split; (split; [intros H | intros H]).
    + left. by eexists.
    + reflexivity.
    + discriminate H.
    + by destruct H.
  - destruct (respond E stdin fresh) as [s' [d | e]]; simpl.
    + split.
      * exists d. split; [reflexivity |]. left.
        split; [by eapply Hshape | done].
      * split; (split; [intros H | intros H]).
        -- discriminate H.
        -- destruct H as [[? H] | [e H]]; discriminate H.
        -- eauto.
        -- reflexivity.
    + split.
      * eexists. split; [reflexivity |]. right. by exists e.
      * split; (split; [intros H | intros H]).
        -- eauto.
        -- reflexivity.
        -- discriminate H.
        -- destruct H as [_ [d H]]. discriminate H.
Qed.

(** X2: a [text] field takes precedence.  Two requests that are objects
    with the same [text] value give the same run, whatever their other
    fields are; in particular a [texts] field beside [text] is ignored. *)
Theorem main_text_first (stdin stdin' : string) (m m' : gmap string json)
    (v : json) (s : state) :
  json_loads E stdin = Ok (JObj m) ->
  json_loads E stdin' = Ok (JObj m') ->
  m !! "text" = Some v ->
  m' !! "text" = Some v ->
  main E stdin s = main E stdin' s.
Proof.
  intros Hparse Hparse' Hv Hv'. unfold main, respond, bind, lift.
  rewrite Hparse, Hparse'.
  rewrite (contains_present _ _ _ Hv), (contains_present _ _ _ Hv').
  by rewrite (getitem_present _ _ _ Hv), (getitem_present _ _ _ Hv').
Qed.


Lemma load_model_cases (s : state) :
  (exists h, model_var s = Some h /\ load_model E s = (s, Ok h)) \/
  (exists enc, model_var s = None /\
     load_model E s
     = (State (Some (Handle (ctor_calls s) enc)) (S (ctor_calls s))
          (S (constructed s)) (encode_calls s),
        Ok (Handle (ctor_calls s) enc))) \/
  (exists e, model_var s = None /\
     load_model E s
     = (State None (S (ctor_calls s)) (constructed s) (encode_calls s), Raise e)).
Proof.
  destruct (model_var s) as [h |] eqn:Hm.
  - left. exists h. eauto using load_model_loaded.
  - right. destruct (new_model E (ctor_calls s) MODEL_NAME) as [enc | e] eqn:Hnew.
    + left. exists enc. eauto using load_model_constructs.
    + right. exists e. eauto using load_model_failure.
Qed.

(** What a run leaves of the state: nothing changed, or what [load_model]
    left, or that with one more input passed to [encode]. *)
Lemma respond_effect (stdin : string) (s : state) :
  (respond E stdin s).1 = s \/
  (respond E stdin s).1 = (load_model E s).1 \/
  exists h x kw, (respond E stdin s).1 = (call_encode h x kw (load_model E s).1).1.
Proof.
  unfold respond, bind, lift, generate_embedding, generate_batch_embeddings, bind.
  destruct (json_loads E stdin) as [request | e]; [| by left].
  destruct (py_contains "text" request) as [[|] | e]; [| | by left].
  - destruct (py_getitem request "text") as [text | e]; [| by left].
    destruct (load_model E s) as [s1 [h | e]]; [| by right; left].
    right. right. exists h, text, (Kwargs None (Some true) None).
    unfold call_encode. destruct (encode h text _) as [a | e]; [| done].
    simpl. by destruct (py_len (tolist a)).
  - destruct (py_contains "texts" request) as [[|] | e]; [| by left | by left].
    destruct (py_getitem request "texts") as [texts | e]; [| by left].
    destruct (load_model E s) as [s1 [h | e]]; [| by right; left].
    right. right. exists h, texts, (Kwargs None (Some true) (Some 32)).
    unfold call_encode. destruct (encode h texts _) as [a | e]; [| done].
    simpl. by destruct (py_len (tolist a)).
Qed.

(** X4: one run constructs the model at most once and calls [encode] at most
    once; with a model already in the global it makes no constructor call
    at all. *)
Theorem main_calls_once (stdin : string) (s : state) :
  (ctor_calls (main E stdin s).1 <= S (ctor_calls s))%nat /\
  (ctor_calls s <= ctor_calls (main E stdin s).1)%nat /\
  (exists tail, encode_calls (main E stdin s).1 = encode_calls s ++ tail /\
                (length tail <= 1)%nat) /\
  (is_Some (model_var s) -> ctor_calls (main E stdin s).1 = ctor_calls s).
Proof.
  assert (Hstate : (main E stdin s).1 = (respond E stdin s).1).
  { unfold main. by destruct (respond E stdin s) as [s' [d | e]]. }
  rewrite Hstate. clear Hstate.
  assert (Hload :
    (ctor_calls (load_model E s).1 <= S (ctor_calls s))%nat /\
    (ctor_calls s <= ctor_calls (load_model E s).1)%nat /\
    encode_calls (load_model E s).1 = encode_calls s /\
    (is_Some (model_var s) -> ctor_calls (load_model E s).1 = ctor_calls s)).
  { destruct (load_model_cases s)
      as [(h & Hm & ->) | [(enc & Hm & ->) | (e & Hm & ->)]]; simpl;
      (split_and!; [lia | lia | done | try done]);
      rewrite Hm; by intros [? ?]. }
  destruct Hload as (Hle & Hge & Hcalls & Hloaded).
  destruct (respond_effect stdin s) as [-> | [-> | (h & x & kw & ->)]].
  - split_and!; [lia | lia | | done].
    exists []. split; [by rewrite app_nil_r | simpl; lia].
  - split_and!; [done | done | | done].
    exists []. split; [by rewrite Hcalls, app_nil_r | simpl; lia].
  - simpl. split_and!; [done | done | | done].
    exists [x]. split; [by rewrite Hcalls | simpl; lia].
Qed.

End StdioMore.

Lemma main_text_first_witness :
  GenerateEmbeddings.main Sample2.env Sample2.doc_both fresh
  = GenerateEmbeddings.main Sample2.env Sample.doc_text fresh.
Proof.
  apply (main_text_first Sample2.env Sample2.doc_both Sample.doc_text
           (<["texts" := JArr [JStr "hi"]]> {["text" := JStr "hello"]})
           {["text" := JStr "hello"]} (JStr "hello") fresh);
    reflexivity.
Defined.


Lemma main_calls_once_witness :
  ctor_calls
    (GenerateEmbeddings.main Sample.env Sample.doc_text
       (State (Some (Handle 0 Sample.encode)) 1 1 [])).1 = 1%nat.
Proof.
  apply (main_calls_once Sample.env Sample.doc_text
           (State (Some (Handle 0 Sample.encode)) 1 1 [])).
  by eexists.
Defined.

Section StdioProvider.
Import GenerateEmbeddings.
Context (E : Env) (embed : string -> list float).

Lemma len_embedding_of (t : string) :
  (forall t, length (embed t) = 384%nat) ->
  py_len (embedding_of embed t) = Ok 384.
Proof. intros Hlen. simpl. by rewrite length_fmap, Hlen. Qed.

(** X5: with a provider that meets the contract at hand, a request object
    whose [text] is a string is answered with that text's vector and
    [dimension] 384, and one with no [text] and a list of strings under
    [texts] with the vectors of the strings, in order, and their number as
    [count]; nothing goes to standard error and the status is 0. *)
Theorem main_embeds (stdin : string) (m : gmap string json) (s : state) :
  json_loads E stdin = Ok (JObj m) ->
  available E MODEL_NAME embed s ->
  (forall t, m !! "text" = Some (JStr t) ->
     (main E stdin s).2
     = Outcome [JObj (<["dimension" := JInt 384]>
                      {["embedding" := embedding_of embed t]})] [] 0) /\
  (forall ts, m !! "text" = None -> m !! "texts" = Some (JArr (JStr <$> ts)) ->
     (main E stdin s).2
     = Outcome [JObj (<["count" := JInt (Z.of_nat (length ts))]>
                      {["embeddings" := JArr (embedding_of embed <$> ts)]})] [] 0).
Proof.
  intros Hparse Hs.
  assert (Hlen : forall t, length (embed t) = 384%nat).
  { by destruct (load_model_available E embed s Hs) as (h & _ & _ & _ & ? & _). }
  split.
  - intros t Ht.
    destruct (generate_embedding_value E embed t s Hs) as (s' & Hrun & _).
    unfold main, respond, bind, lift.
    rewrite Hparse, (contains_present _ _ _ Ht), (getitem_present _ _ _ Ht), Hrun.
    by rewrite (len_embedding_of t Hlen).
  - intros ts Hnone Hts.
    destruct (generate_batch_embeddings_value E embed ts s Hs) as (s' & Hrun & _).
    unfold main, respond, bind, lift.
    rewrite Hparse, (contains_absent _ _ Hnone).
    rewrite (contains_present _ _ _ Hts), (getitem_present _ _ _ Hts), Hrun.
    simpl. by rewrite length_fmap.
Qed.

End StdioProvider.

Lemma main_embeds_witness :
  (GenerateEmbeddings.main Sample.env Sample.doc_texts fresh).2
  = GenerateEmbeddings.Outcome
      [JObj (<["count" := JInt 2]>
             {["embeddings" := JArr (embedding_of Sample.embed <$> ["hello"; "hi"])]})]
      [] 0.
Proof.
  apply (proj2 (main_embeds Sample.env Sample.embed Sample.doc_texts
                  {["texts" := JArr [JStr "hello"; JStr "hi"]]} fresh
                  eq_refl (sample_available _)) ["hello"; "hi"]);
    reflexivity.
Defined.

(** ** The HTTP server, beyond the claims *)

Section ServerMore.
Import BertEmbeddingServer.
Context (E : Env).

Lemma handle_returns_expected (r : request) :
  returns expected (handle_one_request E r).
Proof.
  unfold handle_one_request, do_GET, do_POST.
  case_bool_decide.
  - case_bool_decide; apply returns_ret; simpl; eauto.
  - case_bool_decide; [| apply returns_ret; simpl; eauto].
    case_bool_decide; simpl; [| apply returns_ret; simpl; eauto].
    apply returns_try.
    + unfold embed.
      apply returns_bind. intros n _.
      apply returns_bind. intros data _.
      apply returns_bind. intros [|] _; simpl; [| apply returns_ret; simpl; eauto].
      apply returns_bind. intros texts _.
      destruct texts as [| b | k | f | t | xs | m];
        try (apply returns_ret; simpl; eauto).
      destruct xs as [| x xs]; simpl; [apply returns_ret; simpl; eauto |].
      apply returns_bind. intros l _.
      apply returns_ret. split; [done |]. right. by exists l.
    + intros e. unfold send_error.
      destruct (isinstance_JSONDecodeError e);
        (destruct (latin1 _); [apply returns_ret; simpl; eauto | apply returns_raise]).
Qed.

(** X6: whatever the request and whatever the JSON codec and the model do,
    the handler either answers with one of five statuses, 200, 400, 404,
    500 or 501, or answers nothing; the second happens only for a
    [POST /embed] whose [try] body raised an exception with a message that
    cannot be encoded in latin-1, and what leaves the handler then is the
    [UnicodeEncodeError] of the status line. *)
Theorem response_statuses (r : request) (s : state) :
  (exists a,
     (handle_one_request E r s).2 = Ok a /\
     (status a = 200 \/ status a = 400 \/ status a = 404 \/
      status a = 500 \/ status a = 501)) \/
  (exists s' e,
     command r = "POST" /\ path r = "/embed" /\
     embed E r s = (s', Raise e) /\
     latin1 (str e) = false /\
     handle_one_request E r s
     = (s', Raise (unicode_error E
                     ((if isinstance_JSONDecodeError e
                       then "Invalid JSON: " else "Internal server error: ")
                      +:+ str e)))).
Proof.
  pose proof (handle_returns_expected r s) as Hexp.
  destruct (handle_one_request E r s) as [s1 [a | e0]] eqn:Hrun.
  - left. exists a. split; [reflexivity |].
    specialize (Hexp s1 a eq_refl).
    destruct a as [c body | c msg]; simpl in *; [destruct Hexp as [-> _] |]; tauto.
  - right. clear Hexp. revert Hrun.
    unfold handle_one_request, do_GET, do_POST, try_except.
    repeat case_bool_decide; simpl; try discriminate.
    destruct (embed E r s) as [s' [a | e]]; [discriminate |].
    intros Hrun. exists s', e. split_and!; try done.
    + destruct (isinstance_JSONDecodeError e);
        match type of Hrun with
        | send_error E ?c ?m s' = _ =>
            destruct (send_error_cases E c m s') as [Hok | [Hm _]];
              [rewrite Hok in Hrun; discriminate Hrun
              | rewrite latin1_app in Hm; exact Hm]
        end.
    + destruct (isinstance_JSONDecodeError e);
        match type of Hrun with
        | send_error E ?c ?m s' = _ =>
            destruct (send_error_cases E c m s') as [Hok | [_ Hraise]];
              [rewrite Hok in Hrun; discriminate Hrun
              | rewrite Hraise in Hrun; by injection Hrun as <- <-]
        end.
Qed.

(** X7: a response with a JSON body always has status 200, and its body is
    the fixed health object or an object [{embeddings, dimension, count}]
    in which [dimension] is the constant 384, whatever the length of the
    vectors the model returned, and [count] is the number of elements of
    [embeddings]. *)
Theorem json_responses (r : request) (s s' : state) (c : Z) (body : json) :
  handle_one_request E r s = (s', Ok (SendJson c body)) ->
  c = 200 /\
  (body = health \/
   exists (l : list json) (o : gmap string json),
     body = JObj o /\
     o !! "embeddings" = Some (JArr l) /\
     o !! "dimension" = Some (JInt 384) /\
     o !! "count" = Some (JInt (Z.of_nat (length l))) /\
     dom o = {["embeddings"; "dimension"; "count"]}).
Proof.
  intros Hrun. destruct (handle_returns_expected r s s' _ Hrun) as [-> Hbody].
  split; [done |]. destruct Hbody as [-> | [l ->]]; [by left | right].
  exists l. eexists. split; [reflexivity |].
  split_and!; [done | done | done |].
  rewrite !dom_insert_L, dom_singleton_L. set_solver.
Qed.

(** What a request leaves of the state: nothing changed, or what
    [get_model] left, or that with one more input passed to [encode]. *)
Lemma handle_effect (r : request) (s : state) :
  (handle_one_request E r s).1 = s \/
  (handle_one_request E r s).1 = (get_model E s).1 \/
  exists h x kw,
    (handle_one_request E r s).1 = (call_encode h x kw (get_model E s).1).1.
Proof.
  unfold handle_one_request, do_GET, do_POST.
  case_bool_decide; [by case_bool_decide; left |].
  case_bool_decide; [| by left].
  case_bool_decide; simpl; [| by left].
  unfold try_except, embed, bind, lift.
  destruct (header_int E (content_length r)) as [n | e];
    [| destruct (isinstance_JSONDecodeError e); left; apply send_error_state].
  destruct (json_loads E (rfile_read n (rfile r))) as [data | e];
    [| destruct (isinstance_JSONDecodeError e); left; apply send_error_state].
  destruct (py_contains "texts" data) as [[|] | e]; simpl;
    [| by left
     | destruct (isinstance_JSONDecodeError e); left; apply send_error_state].
  destruct (py_getitem data "texts") as [texts | e];
    [| destruct (isinstance_JSONDecodeError e); left; apply send_error_state].
  destruct texts as [| b | k | f | t | xs | m]; try by left.
  destruct xs as [| x xs]; simpl; [by left |].
  unfold embeddings_list_of, bind, lift.
  destruct (get_model E s) as [s1 [h | e]];
    [| destruct (isinstance_JSONDecodeError e); right; left;
       apply send_error_state].
  right. right. exists h, (JArr (x :: xs)), (Kwargs (Some false) None None).
  unfold call_encode.
  destruct (encode h (JArr (x :: xs)) _) as [[f | rows] | e]; simpl;
    try done; destruct (isinstance_JSONDecodeError _); apply send_error_state.
Qed.

Lemma get_model_counts (s : state) :
  (ctor_calls s <= ctor_calls (get_model E s).1 <= S (ctor_calls s))%nat /\
  encode_calls (get_model E s).1 = encode_calls s.
Proof.
  destruct (get_model_cases E s)
    as [(h & _ & ->) | [(enc & _ & ->) | (e & _ & ->)]]; simpl; split; (lia || done).
Qed.

Lemma handle_counts (r : request) (s : state) :
  (ctor_calls s <= ctor_calls (handle_one_request E r s).1 <= S (ctor_calls s))%nat /\
  (length (encode_calls s) <= length (encode_calls (handle_one_request E r s).1)
   <= S (length (encode_calls s)))%nat.
Proof.
  destruct (get_model_counts s) as [Hctor Hcalls].
  destruct (handle_effect r s) as [-> | [-> | (h & x & kw & ->)]]; simpl;
    rewrite ?Hcalls, ?length_app; simpl; lia.
Qed.

(** X8: serving a request makes at most one constructor call and at most one
    [encode] call, so after any [n] requests at most [n] more of each have
    been made. *)
Theorem serve_forever_calls (rs : list request) (s : state) :
  (ctor_calls s <= ctor_calls (serve_forever E rs s).1
   <= ctor_calls s + length rs)%nat /\
  (length (encode_calls s) <= length (encode_calls (serve_forever E rs s).1)
   <= length (encode_calls s) + length rs)%nat.
Proof.
  revert s. induction rs as [| r rs IH]; intros s; simpl; [lia |].
  pose proof (handle_counts r s) as H1.
  destruct (handle_one_request E r s) as [s1 a]. simpl in H1.
  specialize (IH s1). destruct (serve_forever E rs s1) as [s2 answers].
  simpl in *. lia.
Qed.

End ServerMore.

Lemma json_responses_witness :
  200 = 200 /\
  (BertEmbeddingServer.health = BertEmbeddingServer.health \/
   exists (l : list json) (o : gmap string json),
     BertEmbeddingServer.health = JObj o /\
     o !! "embeddings" = Some (JArr l) /\
     o !! "dimension" = Some (JInt 384) /\
     o !! "count" = Some (JInt (Z.of_nat (length l))) /\
     dom o = {["embeddings"; "dimension"; "count"]}).
Proof.
  apply (json_responses Sample.env
           (BertEmbeddingServer.Request "GET" "/health" None EmptyString)
           fresh fresh 200 BertEmbeddingServer.health).
  reflexivity.
Defined.

Section ServerSequences.
Import BertEmbeddingServer.
Context (E : Env).

Lemma serve_forever_app (rs rs' : list request) (s : state) :
  serve_forever E (rs ++ rs') s
  = ((serve_forever E rs' (serve_forever E rs s).1).1,
     (serve_forever E rs s).2 ++ (serve_forever E rs' (serve_forever E rs s).1).2).
Proof.
  revert s. induction rs as [| r rs IH]; intros s; simpl.
  - by destruct (serve_forever E rs' s).
  - destruct (handle_one_request E r s) as [s1 a]. rewrite IH.
    by destruct (serve_forever E rs s1) as [s2 answers].
Qed.

(** X9: once the global holds a model, serving any further requests makes no
    constructor call and leaves that model in the global. *)
Theorem serve_loaded (rs : list request) (s : state) (h : SentenceTransformer) :
  model_var s = Some h ->
  model_var (serve_forever E rs s).1 = Some h /\
  ctor_calls (serve_forever E rs s).1 = ctor_calls s /\
  constructed (serve_forever E rs s).1 = constructed s.
Proof.
  intros Hm.
  apply (serve_keeps E
           (fun s' => model_var s' = Some h /\ ctor_calls s' = ctor_calls s /\
                      constructed s' = constructed s)); [| | done].
  - intros s' (Hm' & ?). by rewrite (get_model_loaded _ _ _ Hm').
  - by intros h' x kw s' Hs'.
Qed.

(** X10: the model is loaded lazily.  Serving requests none of which is a
    [POST /embed] changes nothing: the model is neither constructed nor
    called. *)
Theorem serve_without_embed (rs : list request) (s : state) :
  Forall (fun r => ~ (command r = "POST" /\ path r = "/embed")) rs ->
  (serve_forever E rs s).1 = s.
Proof.
  induction 1 as [| r rs Hr _ IH]; simpl; [done |].
  assert (Hone : (handle_one_request E r s).1 = s).
  { unfold handle_one_request, do_GET, do_POST.
    repeat case_bool_decide; simpl; try done. by destruct Hr. }
  destruct (handle_one_request E r s) as [s1 a]. simpl in Hone. subst s1.
  by destruct (serve_forever E rs s) as [s2 answers].
Qed.

(** X11: the health check does not look at the model.  After any requests,
    also ones on which the model failed to load, a [GET /health] is
    answered 200 with the same fixed body, and changes nothing. *)
Theorem health_after (rs : list request) (r : request) (s : state) :
  command r = "GET" ->
  path r = "/health" ->
  serve_forever E (rs ++ [r]) s
  = ((serve_forever E rs s).1,
     (serve_forever E rs s).2 ++ [Ok (SendJson 200 health)]).
Proof.
  intros Hcmd Hpath. rewrite serve_forever_app. simpl.
  unfold handle_one_request, do_GET. by rewrite Hcmd, Hpath.
Qed.


(** X13: a [POST /embed] without a [Content-Length] header is answered 500:
    [int(None)] raises [TypeError] before anything is read from the
    request, whatever the body holds. *)
Theorem post_without_length (r : request) (s : state) :
  command r = "POST" ->
  path r = "/embed" ->
  content_length r = None ->
  handle_one_request E r s
  = (s,
     Ok (SendError 500
           ("Internal server error: "
              +:+ "int() argument must be a string, a bytes-like object "
              +:+ "or a real number, not 'NoneType'"))).
Proof.
  intros Hcmd Hpath Hnone.
  unfold handle_one_request, do_POST, try_except, embed, bind, lift, header_int.
  rewrite Hcmd, Hpath, Hnone. simpl. by apply send_error_latin1.
Qed.




End ServerSequences.

Lemma serve_loaded_witness :
  let s := State (Some (Handle 0 Sample.encode)) 1 1 [] in
  let s' := (BertEmbeddingServer.serve_forever Sample.env
               [Sample.post Sample.doc_texts; Sample.post Sample.doc_empty] s).1 in
  model_var s' = Some (Handle 0 Sample.encode) /\
  ctor_calls s' = 1%nat /\ constructed s' = 1%nat.
Proof.
  apply (serve_loaded Sample.env
           [Sample.post Sample.doc_texts; Sample.post Sample.doc_empty]
           (State (Some (Handle 0 Sample.encode)) 1 1 []) (Handle 0 Sample.encode)).
  reflexivity.
Defined.

Lemma serve_without_embed_witness :
  (BertEmbeddingServer.serve_forever Sample.env_missing
     [BertEmbeddingServer.Request "GET" "/health" None EmptyString;
      BertEmbeddingServer.Request "POST" "/health" None EmptyString;
      BertEmbeddingServer.Request "PUT" "/embed" None EmptyString] fresh).1
  = fresh.
Proof.
  apply (serve_without_embed Sample.env_missing).
  repeat constructor; intros [Hcmd Hpath]; discriminate.
Defined.

Lemma health_after_witness :
  BertEmbeddingServer.serve_forever Sample.env_missing
    ([Sample.post Sample.doc_texts]
       ++ [BertEmbeddingServer.Request "GET" "/health" None EmptyString]) fresh
  = ((BertEmbeddingServer.serve_forever Sample.env_missing
        [Sample.post Sample.doc_texts] fresh).1,
     (BertEmbeddingServer.serve_forever Sample.env_missing
        [Sample.post Sample.doc_texts] fresh).2
       ++ [Ok (BertEmbeddingServer.SendJson 200 BertEmbeddingServer.health)]).
Proof.
  apply (health_after Sample.env_missing [Sample.post Sample.doc_texts]
           (BertEmbeddingServer.Request "GET" "/health" None EmptyString) fresh);
    reflexivity.
Defined.


Lemma post_without_length_witness :
  BertEmbeddingServer.handle_one_request Sample.env
    (BertEmbeddingServer.Request "POST" "/embed" None Sample.doc_texts) fresh
  = (fresh,
     Ok (BertEmbeddingServer.SendError 500
           ("Internal server error: "
              +:+ "int() argument must be a string, a bytes-like object "
              +:+ "or a real number, not 'NoneType'"))).
Proof.
  apply (post_without_length Sample.env
           (BertEmbeddingServer.Request "POST" "/embed" None Sample.doc_texts) fresh);
    reflexivity.
Defined.





(** ** The server script's entry point *)

(** X17: the script serves on the loopback address only, whatever its
    arguments.  Without an argument the port is 8765; arguments after the
    first are ignored; a first argument that [int] rejects ends the script
    with status 1 before any server is created; and any integer [int]
    accepts is passed on as the port, with no check of its range. *)
Theorem script_launch (E : Env) (argv : list string) :
  (forall host port, ServerScript.script E argv = ServerScript.RunServer host port ->
     host = "127.0.0.1") /\
  ((length argv <= 1)%nat ->
     ServerScript.script E argv = ServerScript.RunServer "127.0.0.1" 8765) /\
  (forall prog arg rest, argv = prog :: arg :: rest ->
     ServerScript.script E argv = ServerScript.script E [prog; arg] /\
     (forall port, py_int E arg = Ok port ->
        ServerScript.script E argv = ServerScript.RunServer "127.0.0.1" port) /\
     (forall e, py_int E arg = Raise e -> isinstance_ValueError e = true ->
        ServerScript.script E argv = ServerScript.SysExit 1)).
Proof.
  split_and!.
  - intros host port. unfold ServerScript.script, ServerScript.run_server.
    destruct argv as [| prog [| arg rest]]; try by intros [= <- _].
    destruct (py_int E arg) as [p | e]; [by intros [= <- _] |].
    by destruct (isinstance_ValueError e).
  - destruct argv as [| prog [| arg rest]]; simpl; [done | done | lia].
  - intros prog arg rest ->. split_and!; [done | |].
    + intros port Hport. simpl. by rewrite Hport.
    + intros e Hraise Hclass. simpl. by rewrite Hraise, Hclass.
Qed.

Lemma script_launch_witness :
  ServerScript.script Sample.env ["bert_embedding_server.py"; "80a"; "9000"]
  = ServerScript.SysExit 1.
Proof.
  apply (proj2 (proj2 (script_launch Sample.env
                         ["bert_embedding_server.py"; "80a"; "9000"]))
           "bert_embedding_server.py" "80a" ["9000"] eq_refl)
    with (e := Exn ValueError "invalid literal for int() with base 10: '80a'");
    reflexivity.
Defined.

(** ** [get_model] under threads, beyond the claims *)

Section ThreadsMore.
Import Threads.
Context (E : Env).

(** X18: mutual exclusion.  In no interleaving are two threads inside the
    [with _model_lock] block at the same time. *)
Theorem lock_excludes (n : nat) (c : config) (i j : nat) (p q : pc) :
  reachable E n c ->
  threads c !! i = Some p ->
  threads c !! j = Some q ->
  holding p = true ->
  holding q = true ->
  i = j.
Proof.
  intros Hc Hi Hj Hp Hq. apply invariant_reachable in Hc.
  pose proof (inv_lock _ Hc i p Hi Hp) as Hlock_i.
  pose proof (inv_lock _ Hc j q Hj Hq) as Hlock_j.
  congruence.
Qed.

Lemma lock_owned_init (n : nat) : lock_owned (init n).
Proof. intros j Hj. discriminate Hj. Qed.

Lemma lock_owned_step (c c' : config) :
  lock_owned c -> step E c c' -> lock_owned c'.
Proof.
  intros Howned [i p Hi Hstep] j.
  assert (Hlt : (i < length (threads c))%nat) by (by eapply lookup_lt_Some).
  assert (Hkeep : forall p',
    lock c = Some j ->
    (holding p = true -> holding p' = true) ->
    exists q, <[i := p']> (threads c) !! j = Some q /\ holding q = true).
  { intros p' Hlock Hp'. destruct (Howned j Hlock) as (q & Hj & Hq).
    destruct (decide (i = j)) as [<- | Hne].
    - exists p'. split; [by apply list_lookup_insert_eq |].
      apply Hp'. congruence.
    - exists q. by rewrite list_lookup_insert_ne. }
  destruct c as [g l ts]. simpl in *.
  destruct p as [| | | | | h | [e |] | | m | e]; simpl in Hstep.
  - injection Hstep as <-. simpl. intros Hl. by apply Hkeep.
  - destruct (model_var g); injection Hstep as <-; simpl; intros Hl;
      by apply Hkeep.
  - destruct l as [k |]; [discriminate |]. injection Hstep as <-. simpl.
    intros [= <-]. exists Test2. split; [by apply list_lookup_insert_eq | done].
  - destruct (model_var g); injection Hstep as <-; simpl; intros Hl;
      by apply Hkeep.
  - unfold construct in Hstep.
    destruct (new_model E (ctor_calls g) "all-MiniLM-L6-v2");
      injection Hstep as <-; simpl; intros Hl; by apply Hkeep.
  - injection Hstep as <-. simpl. intros Hl. by apply Hkeep.
  - injection Hstep as <-. simpl. discriminate.
  - injection Hstep as <-. simpl. discriminate.
  - injection Hstep as <-. simpl. intros Hl. by apply Hkeep.
  - injection Hstep as <-. simpl. intros Hl. by apply Hkeep.
  - injection Hstep as <-. simpl. intros Hl. by apply Hkeep.
Qed.

Lemma lock_owned_reachable (n : nat) (c : config) : reachable E n c -> lock_owned c.
Proof.
  induction 1 as [| c c' _ IH Hstep];
    [apply lock_owned_init | exact (lock_owned_step _ _ IH Hstep)].
Qed.

(** X19: the lock is never left behind.  In every interleaving the lock is
    held only by a thread that is inside the [with] block, so when no thread
    is inside it (also after a constructor that raised) the lock is
    free. *)
Theorem lock_released (n : nat) (c : config) :
  reachable E n c ->
  (forall j, lock c = Some j ->
     exists q, threads c !! j = Some q /\ holding q = true) /\
  (Forall (fun p => holding p = false) (threads c) -> lock c = None).
Proof.
  intros Hc. pose proof (lock_owned_reachable n c Hc) as Howned.
  split; [exact Howned |].
  intros Hnone. destruct (lock c) as [j |] eqn:Hlock; [| done].
  destruct (Howned j Hlock) as (q & Hj & Hq).
  rewrite Forall_lookup in Hnone. specialize (Hnone j q Hj). congruence.
Qed.

Lemma holder_steps (i : nat) (p : pc) (c : config) :
  holding p = true -> exists c', step_of E i p c = Some c'.
Proof.
  destruct p as [| | | | | h | [e |] | | m | e]; try discriminate; intros _; simpl.
  - destruct (model_var (globals c)); eauto.
  - destruct (construct E "all-MiniLM-L6-v2" (globals c)) as [g' [h | e]]; eauto.
  - eauto.
  - eauto.
  - eauto.
Qed.

(** X20: no deadlock.  In every interleaving, a thread that cannot take its
    next step is waiting for the lock on line 34, and the lock is then held
    by another thread, which can take a step. *)
Theorem no_deadlock (n : nat) (c : config) (i : nat) (p : pc) :
  reachable E n c ->
  threads c !! i = Some p ->
  (exists c', step_of E i p c = Some c') \/
  (p = Acquire /\
   exists j q c',
     j <> i /\ lock c = Some j /\ threads c !! j = Some q /\
     step_of E j q c = Some c').
Proof.
  intros Hc Hi. pose proof (lock_owned_reachable n c Hc) as Howned.
  destruct p as [| | | | | h | [e |] | | m | e]; simpl;
    try (left; by eauto using holder_steps).
  - left. destruct (model_var (globals c)); eauto.
  - destruct (lock c) as [j |] eqn:Hlock; [| by eauto].
    right. split; [done |].
    destruct (Howned j Hlock) as (q & Hj & Hq).
    destruct (holder_steps j q c Hq) as [c' Hstep].
    exists j, q, c'. split_and!; try done.
    intros ->. rewrite Hi in Hj. by injection Hj as <-.
  - left. apply (holder_steps i Test2 c eq_refl).
  - left. apply (holder_steps i Construct c eq_refl).
Qed.

End ThreadsMore.

Section ThreadsCalls.
Import Threads.
Context (E : Env).

Lemma constructed_at_most (n : nat) (c : config) :
  reachable E n c -> (constructed (globals c) <= 1)%nat.
Proof.
  intros Hc. apply invariant_reachable in Hc.
  destruct (model_var (globals c)) as [h |] eqn:Hm.
  - by rewrite (inv_loaded _ Hc h Hm).
  - destruct (inv_unloaded _ Hc Hm) as [-> | (i & h & Hi)]; [lia |].
    destruct (inv_store _ Hc i h Hi) as [_ ->]. lia.
Qed.

Lemma attempts_step (c c' : config) :
  (forall k, exists enc, new_model E k "all-MiniLM-L6-v2" = Ok enc) ->
  ctor_calls (globals c) = constructed (globals c) ->
  step E c c' ->
  ctor_calls (globals c') = constructed (globals c').
Proof.
  intros Hloads Heq [i p Hi Hstep]. destruct c as [g l ts]. simpl in *.
  destruct p as [| | | | | h | [e |] | | m | e]; simpl in Hstep;
    try (injection Hstep as <-; exact Heq).
  - destruct (model_var g); injection Hstep as <-; exact Heq.
  - destruct l; [discriminate |]. injection Hstep as <-. exact Heq.
  - destruct (model_var g); injection Hstep as <-; exact Heq.
  - unfold construct in Hstep. destruct (Hloads (ctor_calls g)) as [enc Hnew].
    rewrite Hnew in Hstep. injection Hstep as <-. simpl. by rewrite Heq.
Qed.

(** X21: with a package that is installed and a model that loads (the
    constructor never raises), the constructor is called at most once, however
    many threads call [get_model] and however their steps interleave: the
    second check on line 35 stops every thread that lost the race. *)
Theorem constructor_called_once (n : nat) (c : config) :
  (forall k, exists enc, new_model E k "all-MiniLM-L6-v2" = Ok enc) ->
  reachable E n c ->
  (ctor_calls (globals c) <= 1)%nat.
Proof.
  intros Hloads Hc.
  assert (Heq : ctor_calls (globals c) = constructed (globals c)).
  { induction Hc as [| c c' _ IH Hstep]; [reflexivity |].
    by apply (attempts_step c c'). }
  rewrite Heq. by eapply constructed_at_most.
Qed.

Lemma run_step (i : nat) (sched : list nat) (c c' : config) (p : pc) :
  threads c !! i = Some p ->
  step_of E i p c = Some c' ->
  run E (i :: sched) c = run E sched c'.
Proof. intros Hi Hstep. simpl. by rewrite Hi, Hstep. Qed.

Ltac advance :=
  erewrite run_step;
  [ | first [ eassumption
            | apply list_lookup_insert_eq; by rewrite ?length_insert ]
    | simpl; reflexivity ];
  rewrite ?list_insert_insert_eq.

(** X22: the step model agrees with the function.  A call of [get_model]
    that starts with the lock free and runs without another thread moving
    in between ends, after finitely many steps, with the globals the
    sequential [get_model] leaves, with its result (the model returned or
    the exception raised) at the calling thread, with the lock free, and
    with every other thread where it was. *)
Theorem uninterrupted_call (c : config) (i : nat) (p : pc) :
  lock c = None ->
  threads c !! i = Some p ->
  idle p = true ->
  exists k,
    run E (replicate k i) c
    = Config (BertEmbeddingServer.get_model E (globals c)).1 None
        (<[i := ended (BertEmbeddingServer.get_model E (globals c)).2]> (threads c)).
Proof.
  intros Hlock Hi Hidle. destruct c as [g l ts]. simpl in *. subst l.
  assert (Hlt : (i < length ts)%nat) by (by eapply lookup_lt_Some).
  assert (Hfirst : step_of E i p (Config g None ts)
                   = Some (Config g None (<[i := Test1]> ts))).
  { by destruct p. }
  destruct (model_var g) as [h |] eqn:Hm.
  - exists 3%nat. cbn [replicate].
    erewrite run_step; [| exact Hi | exact Hfirst].
    erewrite run_step;
      [| by apply list_lookup_insert_eq | simpl; rewrite Hm; reflexivity].
    rewrite list_insert_insert_eq. advance.
    rewrite (get_model_loaded E g h Hm). simpl. by rewrite Hm.
  - destruct (new_model E (ctor_calls g) "all-MiniLM-L6-v2") as [enc | e] eqn:Hnew.
    + exists 8%nat. cbn [replicate].
      erewrite run_step; [| exact Hi | exact Hfirst].
      erewrite run_step;
        [| by apply list_lookup_insert_eq | simpl; rewrite Hm; reflexivity].
      rewrite list_insert_insert_eq. advance.
      erewrite run_step;
        [| by apply list_lookup_insert_eq | simpl; rewrite Hm; reflexivity].
      rewrite list_insert_insert_eq.
      erewrite run_step;
        [| by apply list_lookup_insert_eq
         | simpl; unfold construct; rewrite Hnew; reflexivity].
      rewrite list_insert_insert_eq. advance. advance. advance.
      by rewrite (get_model_constructs E g enc Hm Hnew).
    + exists 6%nat. cbn [replicate].
      erewrite run_step; [| exact Hi | exact Hfirst].
      erewrite run_step;
        [| by apply list_lookup_insert_eq | simpl; rewrite Hm; reflexivity].
      rewrite list_insert_insert_eq. advance.
      erewrite run_step;
        [| by apply list_lookup_insert_eq | simpl; rewrite Hm; reflexivity].
      rewrite list_insert_insert_eq.
      erewrite run_step;
        [| by apply list_lookup_insert_eq
         | simpl; unfold construct; rewrite Hnew; reflexivity].
      rewrite list_insert_insert_eq. advance.
      rewrite (get_model_fails E g e Hm Hnew). simpl. by rewrite Hm.
Qed.

End ThreadsCalls.

Lemma lock_excludes_witness : 0%nat = 0%nat.
Proof.
  apply (lock_excludes Sample.env 2
           (Threads.run Sample.env [0; 0; 0]%nat (Threads.init 2))
           0 0 Threads.Test2 Threads.Test2).
  - apply run_reachable, Threads.reach_init.
  - reflexivity.
  - reflexivity.
  - reflexivity.
  - reflexivity.
Defined.

Lemma lock_released_witness :
  Threads.lock
    (Threads.run Sample.env_missing [0; 0; 0; 0; 0; 0]%nat (Threads.init 2))
  = None.
Proof.
  apply (lock_released Sample.env_missing 2).
  - apply run_reachable, Threads.reach_init.
  - vm_compute. repeat constructor.
Defined.

Lemma no_deadlock_witness :
  let c := Threads.run Sample.env [0; 0; 0; 1; 1]%nat (Threads.init 2) in
  (exists c', Threads.step_of Sample.env 1 Threads.Acquire c = Some c') \/
  (Threads.Acquire = Threads.Acquire /\
   exists j q c',
     j <> 1%nat /\ Threads.lock c = Some j /\ Threads.threads c !! j = Some q /\
     Threads.step_of Sample.env j q c = Some c').
Proof.
  apply (no_deadlock Sample.env 2
           (Threads.run Sample.env [0; 0; 0; 1; 1]%nat (Threads.init 2))
           1 Threads.Acquire).
  - apply run_reachable, Threads.reach_init.
  - reflexivity.
Defined.

Lemma constructor_called_once_witness :
  (ctor_calls
     (Threads.globals (Threads.run Sample.env Sample.race (Threads.init 2))) <= 1)%nat.
Proof.
  apply (constructor_called_once Sample.env 2).
  - intros k. by exists Sample.encode.
  - apply run_reachable, Threads.reach_init.
Defined.

Lemma uninterrupted_call_witness :
  exists k,
    Threads.run Sample.env (replicate k 0%nat) (Threads.init 1)
    = Threads.Config
        (BertEmbeddingServer.get_model Sample.env
           (Threads.globals (Threads.init 1))).1
        None
        (<[0%nat := ended (BertEmbeddingServer.get_model Sample.env
                             (Threads.globals (Threads.init 1))).2]>
           (Threads.threads (Threads.init 1))).
Proof.
  apply (uninterrupted_call Sample.env (Threads.init 1) 0 Threads.Outside);
    reflexivity.
Defined.

(** ** Documents that are not objects *)

Section NonObjects.
Context (E : Env).



End NonObjects.


